(** * Baserow: field types, the instance registry and row ordering

    A shallow embedding of
      - [baserow/core/registry.py]                       ([Registry])
      - [baserow/contrib/database/fields/models.py]      ([Field], [NumberField])
      - [baserow/contrib/database/fields/field_types.py] ([NumberFieldType])
    and of the row handler as far as
    [tests/baserow/contrib/database/rows/test_rows_handler.py] pins it down.

    Python values are a small tagged union, exceptions are the error side of
    a result type, dictionaries are [gmap]s and decimal columns are
    fixed-point integers. *)

From Stdlib Require Import ZArith Lia Ascii String.
From stdpp Require Import base option list strings pretty gmap.

Local Open Scope string_scope.
Local Open Scope list_scope.
Local Open Scope Z_scope.

(** ** Exceptions and results *)

Inductive exn : Type :=
  | ValidationError (msg : string)
  | ValueError (msg : string)
  | TypeError
  | InvalidOperation
  | InstanceTypeDoesNotExist (msg : string)
  | InstanceTypeAlreadyRegistered (msg : string)
  | DataError (msg : string).

Inductive result (A : Type) : Type :=
  | Ok (a : A)
  | Raise (e : exn).
Arguments Ok {A} a.
Arguments Raise {A} e.

(** Sequencing stops at the first exception, as Python's control flow does;
    [x ← r; k] is stdpp's notation for it. *)
#[global] Instance result_bind : MBind result := λ A B k r,
  match r with
  | Ok a => k a
  | Raise e => Raise e
  end.

#[global] Instance result_ret : MRet result := λ A a, Ok a.

(** ** Python values

    [decimal.Decimal] is a coefficient and a power of ten, or one of the
    special values; a [float] is kept as the dyadic rational it denotes, so
    that [Decimal(float)] is the exact conversion Python performs. *)

Inductive Decimal : Type :=
  | DFinite (coef : Z) (exp : Z)
  | DInf (negative : bool)
  | DNaN.

Inductive float : Type :=
  | FFinite (mant : Z) (exp2 : Z)
  | FInf (negative : bool)
  | FNaN.

Inductive pyval : Type :=
  | PyNone
  | PyBool (b : bool)
  | PyInt (z : Z)
  | PyFloat (f : float)
  | PyStr (s : string)
  | PyDecimal (d : Decimal).

Definition nonzero (z : Z) : bool := negb (z =? 0).

(** [bool(value)], as used by [if value and ...]. *)
Definition truthy (v : pyval) : bool :=
  match v with
  | PyNone => false
  | PyBool b => b
  | PyInt z => nonzero z
  | PyFloat (FFinite m _) => nonzero m
  | PyFloat _ => true
  | PyStr s => negb (String.eqb s "")
  | PyDecimal (DFinite c _) => nonzero c
  | PyDecimal _ => true
  end.

(** [Decimal(float)]: [m * 2^e] is [m * 2^e * 10^0] for [e >= 0] and
    [m * 5^(-e) * 10^e] otherwise; no rounding takes place. *)
Definition Decimal_of_float (f : float) : Decimal :=
  match f with
  | FFinite m e =>
      if 0 <=? e then DFinite (m * 2 ^ e) 0 else DFinite (m * 5 ^ (- e)) e
  | FInf s => DInf s
  | FNaN => DNaN
  end.

Section PythonDecimal.

(** The parser behind [Decimal(str)] belongs to Python's [decimal] module;
    [None] stands for a string it rejects. *)
Variable Decimal_of_str : string -> option Decimal.

(** [Decimal(value)] *)
Definition to_Decimal (v : pyval) : result Decimal :=
  match v with
  | PyNone => Raise TypeError
  | PyBool b => Ok (DFinite (if b then 1 else 0) 0)
  | PyInt z => Ok (DFinite z 0)
  | PyFloat f => Ok (Decimal_of_float f)
  | PyStr s =>
      match Decimal_of_str s with
      | Some d => Ok d
      | None => Raise InvalidOperation
      end
  | PyDecimal d => Ok d
  end.

End PythonDecimal.

(** [value < 0]: ordering a [str] or [None] against an [int] is a
    [TypeError], an ordering comparison of a decimal NaN signals
    [InvalidOperation], and a float NaN compares false. *)
Definition lt_zero (v : pyval) : result bool :=
  match v with
  | PyNone => Raise TypeError
  | PyBool _ => Ok false
  | PyInt z => Ok (z <? 0)
  | PyFloat (FFinite m _) => Ok (m <? 0)
  | PyFloat (FInf s) => Ok s
  | PyFloat FNaN => Ok false
  | PyStr _ => Raise TypeError
  | PyDecimal (DFinite c _) => Ok (c <? 0)
  | PyDecimal (DInf s) => Ok s
  | PyDecimal DNaN => Raise InvalidOperation
  end.

(** A negative value: one for which [value < 0] holds. *)
Definition is_negative (v : pyval) : Prop := lt_zero v = Ok true.

(** The number a [bool], [int], [float] or [Decimal] denotes: a fraction
    with a positive denominator, an infinity or no number. *)
Inductive number : Type :=
  | Finite (numerator denominator : Z)
  | Infinite (negative : bool)
  | NotANumber.

Definition scaled (m b e : Z) : number :=
  if 0 <=? e then Finite (m * b ^ e) 1 else Finite m (b ^ (- e)).

Definition number_of (v : pyval) : option number :=
  match v with
  | PyBool b => Some (Finite (if b then 1 else 0) 1)
  | PyInt z => Some (Finite z 1)
  | PyFloat (FFinite m e) => Some (scaled m 2 e)
  | PyFloat (FInf s) => Some (Infinite s)
  | PyFloat FNaN => Some NotANumber
  | PyDecimal (DFinite c e) => Some (scaled c 10 e)
  | PyDecimal (DInf s) => Some (Infinite s)
  | PyDecimal DNaN => Some NotANumber
  | PyNone | PyStr _ => None
  end.

(** Numbers are equal when they denote the same value; a NaN equals
    nothing. *)
Definition number_eq (a b : option number) : bool :=
  match a, b with
  | Some (Finite n d), Some (Finite n' d') => n * d' =? n' * d
  | Some (Infinite s), Some (Infinite s') => Bool.eqb s s'
  | _, _ => false
  end.

(** [a == b]: numbers of any of the numeric types compare by value, strings
    with strings, and [None] equals only itself. *)
Definition py_eq (a b : pyval) : bool :=
  match a, b with
  | PyNone, PyNone => true
  | PyBool x, PyBool y => Bool.eqb x y
  | PyBool x, PyInt y => (if x then 1 else 0) =? y
  | PyInt x, PyBool y => x =? (if y then 1 else 0)
  | PyInt x, PyInt y => x =? y
  | PyStr x, PyStr y => String.eqb x y
  | (PyBool _ | PyInt _ | PyFloat _ | PyDecimal _), (PyFloat _ | PyDecimal _)
  | (PyFloat _ | PyDecimal _), (PyBool _ | PyInt _) =>
      number_eq (number_of a) (number_of b)
  | _, _ => false
  end.

(** ** fields/models.py *)

Definition NUMBER_TYPE_INTEGER : string := "INTEGER".
Definition NUMBER_TYPE_DECIMAL : string := "DECIMAL".
Definition NUMBER_TYPE_CHOICES : list (pyval * pyval) :=
  [(PyStr "INTEGER", PyStr "Integer"); (PyStr "DECIMAL", PyStr "Decimal")].

Definition NUMBER_DECIMAL_PLACES_CHOICES : list (pyval * pyval) :=
  [(PyInt 1, PyStr "1.0"); (PyInt 2, PyStr "1.00"); (PyInt 3, PyStr "1.000");
   (PyInt 4, PyStr "1.0000"); (PyInt 5, PyStr "1.00000")].

(** [x in _tuple] for a pair *)
Definition in_tuple (x : pyval) (t : pyval * pyval) : bool :=
  py_eq x (fst t) || py_eq x (snd t).

(** [any(x in _tuple for _tuple in choices)] *)
Definition any_in_tuple (x : pyval) (choices : list (pyval * pyval)) : bool :=
  existsb (in_tuple x) choices.

(** The columns every field shares (class [Field]). *)
Record Field : Type := mkField {
  field_id : Z;
  field_table : Z;
  field_order : Z;
  field_name : string;
  field_primary : bool
}.

(** [Field.db_column] *)
Definition db_column (f : Field) : string := "field_" +:+ pretty (field_id f).

Record NumberField : Type := mkNumberField {
  number_base : Field;
  number_type : string;
  number_decimal_places : Z;
  number_negative : bool
}.

Record DateField : Type := mkDateField {
  date_base : Field;
  date_format : string;
  date_include_time : bool;
  date_time_format : string
}.

Record LinkRowField : Type := mkLinkRowField {
  link_row_base : Field;
  link_row_table : Z;
  link_row_related_field : option Z;
  link_row_relation_id : option Z
}.

(** The subclasses of [Field]; a field of any type is one of these. *)
Inductive SpecificField : Type :=
  | IsTextField (f : Field) (text_default : string)
  | IsLongTextField (f : Field)
  | IsURLField (f : Field)
  | IsNumberField (f : NumberField)
  | IsBooleanField (f : Field)
  | IsDateField (f : DateField)
  | IsLinkRowField (f : LinkRowField)
  | IsEmailField (f : Field)
  | IsFileField (f : Field)
  | IsSingleSelectField (f : Field)
  | IsPhoneNumberField (f : Field).

(** The [Field] part a subclass instance inherits. *)
Definition base (sf : SpecificField) : Field :=
  match sf with
  | IsTextField f _ => f
  | IsLongTextField f => f
  | IsURLField f => f
  | IsNumberField f => number_base f
  | IsBooleanField f => f
  | IsDateField f => date_base f
  | IsLinkRowField f => link_row_base f
  | IsEmailField f => f
  | IsFileField f => f
  | IsSingleSelectField f => f
  | IsPhoneNumberField f => f
  end.

(** [db_column] is inherited unchanged by every subclass. *)
Definition specific_db_column (sf : SpecificField) : string := db_column (base sf).

(** The [NumberField] rows of the database, by primary key. *)
Abbreviation number_fields := (gmap Z NumberField).

(** [NumberField.save]: the two checks, then [super().save()], which writes
    the row under the field's id.  The store comes back in both cases, so
    that a raising call shows what it left behind. *)
Definition save (self : NumberField) (db : number_fields)
  : result unit * number_fields :=
  if negb (any_in_tuple (PyStr (number_type self)) NUMBER_TYPE_CHOICES) then
    (Raise (ValueError (number_type self +:+ " is not a valid choice.")), db)
  else if negb (any_in_tuple (PyInt (number_decimal_places self))
                  NUMBER_DECIMAL_PLACES_CHOICES) then
    (Raise (ValueError (pretty (number_decimal_places self)
                        +:+ " is not a valid choice.")), db)
  else (Ok (), <[field_id (number_base self) := self]> db).

(** ** fields/field_types.py: NumberFieldType *)

(** One table row of the generated model: column name to stored value. *)
Abbreviation row := (gmap string pyval).

Section NumberFieldType.

Variable Decimal_of_str : string -> option Decimal.

(** [NumberFieldType.prepare_value_for_db] *)
Definition prepare_value_for_db (instance : NumberField) (value : pyval)
  : result pyval :=
  value ←
    (if truthy value && String.eqb (number_type instance) NUMBER_TYPE_DECIMAL
     then d ← to_Decimal Decimal_of_str value; Ok (PyDecimal d)
     else Ok value);
  if truthy value && negb (number_negative instance) then
    negative ← lt_zero value;
    if (negative : bool) then
      Raise (ValidationError
               ("The value for field "
                +:+ pretty (field_id (number_base instance))
                +:+ " cannot be negative."))
    else Ok value
  else Ok value.

End NumberFieldType.

(** The SQL predicate [field_<id> < 0]: a NULL, an absent column or a
    value that is no number never matches. *)
Definition sql_lt_zero (cell : option pyval) : bool :=
  match cell with
  | Some v => match lt_zero v with Ok b => b | Raise _ => false end
  | None => false
  end.

(** [model.objects.filter(field_<id>__lt=0).update(field_<id>=0)] *)
Definition filter_lt_zero_update_zero (column : string) (model : list row)
  : list row :=
  (λ r : row, if sql_lt_zero (r !! column) then <[column := PyInt 0]> r else r)
    <$> model.

(** [NumberFieldType.after_update]; [model] is the content of the table. *)
Definition after_update (field old_field : NumberField) (model : list row)
    (altered_column : bool) : list row :=
  if negb altered_column && negb (number_negative field)
     && number_negative old_field
  then filter_lt_zero_update_zero (db_column (number_base field)) model
  else model.

(** ** core/registry.py *)

(** What [Registry] reads of an [Instance]: its [type]. *)
Record Instance : Type := mkInstance {
  type : string;
  model_class : option string
}.

(** An argument of [register]: an [Instance] or any other object. *)
Inductive pyobj : Type :=
  | AnInstance (i : Instance)
  | NotAnInstance (v : pyval).

Record Registry : Type := mkRegistry {
  name : string;
  registry : gmap string Instance
}.

(** [Registry.get] *)
Definition get (self : Registry) (type_name : string) : result Instance :=
  match registry self !! type_name with
  | None =>
      Raise (InstanceTypeDoesNotExist
               ("The " +:+ name self +:+ " type " +:+ type_name
                +:+ " does not exist."))
  | Some instance => Ok instance
  end.

(** [Registry.get_types]: the names are listed in the order of the keys of
    the [gmap]; Python lists them in the order of registration, which the
    registry as a [gmap] does not record. *)
Definition get_types (self : Registry) : list string :=
  (map_to_list (registry self)).*1.

(** [Registry.register]; the registry after the call is returned next to
    the outcome. *)
Definition register (self : Registry) (instance : pyobj)
  : result unit * Registry :=
  match instance with
  | NotAnInstance _ =>
      (Raise (ValueError ("The " +:+ name self
                          +:+ " must be an instance of Instance.")), self)
  | AnInstance i =>
      match registry self !! type i with
      | Some _ =>
          (Raise (InstanceTypeAlreadyRegistered
                    ("The " +:+ name self +:+ " with type " +:+ type i
                     +:+ " is already registered.")), self)
      | None =>
          (Ok (), mkRegistry (name self) (<[type i := i]> (registry self)))
      end
  end.

(** ** Decimal columns *)

Definition MAX_DIGITS : Z := 50.

(** Modelled from the spec: the column behind a DECIMAL field, a Django
    [DecimalField] kept by PostgreSQL as [numeric(max_digits,
    decimal_places)], is missing from the sources.  Section 4.2 gives the
    column its scale and its digits; section 8 has values persisted at
    that scale.  This is the rounding of the column: [c / q] to the
    nearest integer, ties away from zero; [q > 0]. *)
Definition round_half_away (c q : Z) : Z :=
  let a := Z.abs c in
  let d := a / q in
  let r := a mod q in
  Z.sgn c * (if 2 * r <? q then d else d + 1).

(** Modelled from the spec: the column behind a DECIMAL field is missing
    from the sources (see [round_half_away]).  What the column keeps of a
    [Decimal]: a finite value at the scale [decimal_places], refused with
    a [DataError] when it needs more than [max_digits] digits; a value
    that is no finite number reaches the column as NaN. *)
Definition numeric_column (max_digits decimal_places : Z) (d : Decimal)
  : result Decimal :=
  match d with
  | DFinite c e =>
      let t := - decimal_places in
      let c' := if t <=? e then c * 10 ^ (e - t)
                else round_half_away c (10 ^ (t - e)) in
      if Z.abs c' <? 10 ^ max_digits then Ok (DFinite c' t)
      else Raise (DataError "numeric field overflow")
  | _ => Ok DNaN
  end.

(** Modelled from the spec: the columns of the generated model are missing
    from the sources.  What the column of a field keeps of a prepared
    value: the column of a DECIMAL field keeps a [Decimal] as
    [numeric_column] has it, anything else is kept as it was passed. *)
Definition column_value (sf : SpecificField) (v : pyval) : result pyval :=
  match sf, v with
  | IsNumberField nf, PyDecimal d =>
      if String.eqb (number_type nf) NUMBER_TYPE_DECIMAL then
        d' ← numeric_column (MAX_DIGITS + number_decimal_places nf)
                             (number_decimal_places nf) d;
        Ok (PyDecimal d')
      else Ok v
  | _, _ => Ok v
  end.

(** ** rows/handler.py: RowHandler *)

(** A row of a table: [order] is the [DecimalField(max_digits=40,
    decimal_places=20)] column, held as the integer [order * 10^20]. *)
Record Row : Type := mkRow {
  row_id : Z;
  order : Z;
  cells : row
}.

Definition ORDER_SCALE : Z := 10 ^ 20.

(** [Decimal("0.00000000000000000001")] *)
Definition change : Z := 1.

(** [floor(order)], again at scale 20 *)
Definition floor_order (o : Z) : Z := o / ORDER_SCALE * ORDER_SCALE.

(** [ceil(order)], again at scale 20 *)
Definition ceil_order (o : Z) : Z := - (- o / ORDER_SCALE) * ORDER_SCALE.

(** [aggregate(max=Max("order"))]: [None] on an empty table. *)
Definition max_order (rows : list Row) : option Z :=
  foldr (λ r acc, Some (match acc with Some m => Z.max (order r) m
                        | None => order r end)) None rows.

(** Modelled from the spec: [RowHandler] (rows/handler.py) is missing from
    the sources.  Section 4.4 names the operation [append]: the order of a
    row added last.  The values follow the assertions of [test_create_row]
    and [test_move_row], which the replay examples below recompute: the
    order after the whole number the highest order rounds up to. *)
Definition append (rows : list Row) : Z :=
  ceil_order (default 0 (max_order rows)) + ORDER_SCALE.

(** Modelled from the spec: [RowHandler] (rows/handler.py) is missing from
    the sources.  The update that makes room under [new_order]: a row
    between the whole number below [new_order] and [new_order] itself goes
    down by one [change], as [test_create_row] asserts for the rows placed
    before row 2 earlier. *)
Definition move_down (new_order : Z) (r : Row) : Row :=
  if (floor_order new_order <? order r) && (order r <=? new_order)
  then mkRow (row_id r) (order r - change) (cells r) else r.

(** Modelled from the spec: [RowHandler] (rows/handler.py) is missing from
    the sources.  Section 4.4 names the operation [insertBefore]: the order
    of a row placed before [target], and the table after it.  The values
    follow the assertions of [test_create_row] and [test_move_row]: the new
    order is one [change] below the target's, and the rows between the
    whole number under it and the new order move down by one [change]. *)
Definition insertBefore (target : Row) (rows : list Row) : Z * list Row :=
  let new_order := order target - change in
  (new_order, move_down new_order <$> rows).

(** The order of the row immediately before [target]: the highest order
    below the target's, [None] when the target is the first row. *)
Definition preceding_order (target : Row) (rows : list Row) : option Z :=
  max_order (filter (λ r, order r < order target) rows).

(** [insertBefore] as section 4.4 of the specification words it: the
    target's order minus epsilon = 1 for the first row, otherwise the
    midpoint of the target's and the preceding row's order at scale 20. *)
Definition insertBefore_spec (target : Row) (rows : list Row) : Z :=
  match preceding_order target rows with
  | None => order target - 1 * ORDER_SCALE
  | Some p => (order target + p) / 2
  end.

(** [append] as section 4.4 of the specification words it. *)
Definition append_spec (rows : list Row) : Z :=
  match max_order rows with
  | None => 1 * ORDER_SCALE
  | Some m => m + 1 * ORDER_SCALE
  end.

(** [row.delete()] *)
Definition delete_row (r : Row) (rows : list Row) : list Row :=
  filter (λ x, row_id x ≠ row_id r) rows.

(** The order column of the rows. *)
Definition orders (rows : list Row) : list Z := order <$> rows.

(** Modelled from the spec: [RowHandler] (rows/handler.py) is missing from
    the sources.  Rows placed one after the other before the same [target],
    as the successive [create_row(before=row_2)] calls of [test_create_row]
    do; [ids] are the primary keys the new rows get, in turn. *)
Fixpoint insert_many (target : Row) (ids : list Z) (rows : list Row)
  : list Row :=
  match ids with
  | [] => rows
  | i :: ids' =>
      let '(o, rows') := insertBefore target rows in
      insert_many target ids' (rows' ++ [mkRow i o ∅])
  end.

Section RowHandler.

Variable Decimal_of_str : string -> option Decimal.

(** Modelled from the spec: the [prepare_value_for_db] that [FieldType]
    (fields/registries.py) gives every type is missing from the sources.
    Section 4.2 has validation per variant: [NumberFieldType] overrides the
    method, the other types under [field_types.py] do not and hand the
    value back. *)
Definition field_prepare_value_for_db (sf : SpecificField) (v : pyval)
  : result pyval :=
  match sf with
  | IsNumberField nf => prepare_value_for_db Decimal_of_str nf v
  | _ => Ok v
  end.

(** Modelled from the spec: [RowHandler.prepare_values] (rows/handler.py)
    is missing from the sources.  Section 4.5: value validation per field
    via its field type; section 7: the first failure is raised.  [values]
    is the payload by field id; keys that name no field of the table are
    left out, as [test_create_row] asserts for the key 9999. *)
Fixpoint prepare_values (fields : list SpecificField) (values : gmap Z pyval)
  : result row :=
  match fields with
  | [] => Ok ∅
  | sf :: rest =>
      match values !! field_id (base sf) with
      | Some v =>
          v' ← field_prepare_value_for_db sf v;
          r ← prepare_values rest values;
          Ok (<[specific_db_column sf := v']> r)
      | None => prepare_values rest values
      end
  end.

(** Modelled from the spec: the write of [model.objects.create] is missing
    from the sources (rows/handler.py and the generated model).  Each
    prepared value goes through the column of its field. *)
Fixpoint store_values (fields : list SpecificField) (prepared : row)
  : result row :=
  match fields with
  | [] => Ok prepared
  | sf :: rest =>
      r ← store_values rest prepared;
      match r !! specific_db_column sf with
      | Some v =>
          v' ← column_value sf v;
          Ok (<[specific_db_column sf := v']> r)
      | None => Ok r
      end
  end.

(** Modelled from the spec: [RowHandler.create_row] (rows/handler.py) is
    missing from the sources.  Section 4.5: validation, then the order
    from the ordering engine, then persistence; section 7: a validation
    error commits nothing.  [new_id] is the primary key the database
    hands out.  The call returns the row instance, which holds the values
    as they were prepared ([test_create_row] reads the price back from it
    equal to the float it passed), next to the table, whose new row holds
    what the columns keep of them (what the test reads after
    [refresh_from_db]). *)
Definition create_row (fields : list SpecificField) (values : gmap Z pyval)
    (before : option Row) (new_id : Z) (rows : list Row)
  : result Row * list Row :=
  match prepare_values fields values with
  | Raise e => (Raise e, rows)
  | Ok prepared =>
      match store_values fields prepared with
      | Raise e => (Raise e, rows)
      | Ok stored =>
          let '(o, rows') :=
            match before with
            | Some target => insertBefore target rows
            | None => (append rows, rows)
            end in
          (Ok (mkRow new_id o prepared), rows' ++ [mkRow new_id o stored])
      end
  end.

End RowHandler.

(** Modelled from the spec: [RowHandler.move_row] (rows/handler.py) is
    missing from the sources.  Section 4.5: the order is recomputed exactly
    as by [insertBefore] or [append] and written to the moved row. *)
Definition move_row (id : Z) (before : option Row) (rows : list Row)
  : list Row :=
  let '(o, rows') :=
    match before with
    | Some target => insertBefore target rows
    | None => (append rows, rows)
    end in
  (λ r, if decide (row_id r = id) then mkRow (row_id r) o (cells r) else r)
    <$> rows'.

(** [model.objects.get(id=...)], on a refreshed table. *)
Definition get_row (id : Z) (rows : list Row) : option Row :=
  head (filter (λ r, row_id r = id) rows).

(** ** The fixtures of test_rows_handler.py *)

Module TestRowsHandler.

(** The [float] literals of the tests, as the doubles Python reads. *)
Definition float_59999_99 : float := FFinite 8246335833930465 (-37).
Definition float_minus_10_22 : float := FFinite (-5753348523965809) (-49).

Definition name_field : Field := mkField 1 1 0 "Name" false.
Definition speed_field : NumberField :=
  mkNumberField (mkField 2 1 0 "Max speed" false) "INTEGER" 1 true.
Definition price_field : NumberField :=
  mkNumberField (mkField 3 1 0 "Price" false) "DECIMAL" 2 false.

(** The fields of the table "Car". *)
Definition car : list SpecificField :=
  [IsTextField name_field "Test"; IsNumberField speed_field;
   IsNumberField price_field].

(** [handler.create_row(user, table, values, before)]; no test passes a
    string to a number field, so the decimal parser is never asked. *)
Definition create (values : gmap Z pyval) (before : option Z) (new_id : Z)
    (rows : list Row) : result Row * list Row :=
  create_row (λ _, None) car values (before ≫= λ i, get_row i rows)
    new_id rows.

(** The table of [test_create_row] after each of its calls. *)
Definition values_1 : gmap Z pyval :=
  {[ 1 := PyStr "Tesla"; 2 := PyInt 240; 3 := PyFloat float_59999_99;
     9999 := PyStr "Must not be added" ]}.
Definition after_row_1 : list Row := (create values_1 None 1 []).2.
Definition after_row_2 : list Row := (create ∅ None 2 after_row_1).2.
Definition after_row_3 : list Row := (create ∅ (Some 2) 3 after_row_2).2.
Definition after_row_4 : list Row := (create ∅ (Some 2) 4 after_row_3).2.
Definition after_row_5 : list Row := (create ∅ (Some 3) 5 after_row_4).2.
Definition after_row_6 : list Row := (create ∅ (Some 2) 6 after_row_5).2.
Definition after_row_7 : list Row := (create ∅ (Some 1) 7 after_row_6).2.
Definition after_delete : list Row :=
  match get_row 2 after_row_7 with
  | Some row_2 => delete_row row_2 after_row_7
  | None => after_row_7
  end.
Definition after_row_8 : list Row := (create ∅ None 8 after_delete).2.

(** The primary key and the order of every row. *)
Definition id_orders (rows : list Row) : list (Z * Z) :=
  (λ r, (row_id r, order r)) <$> rows.

(** The table of [test_move_row]: three rows created one after the other,
    then row 1 moved to the end, then before row 3. *)
Definition three_rows : list Row :=
  (create ∅ None 3 (create ∅ None 2 (create ∅ None 1 []).2).2).2.
Definition moved_last : list Row := move_row 1 None three_rows.
Definition moved_before_3 : list Row :=
  move_row 1 (get_row 3 moved_last) moved_last.

End TestRowsHandler.

(** ** Further exceptions

    [KeyError] and [ImproperlyConfigured], next to the exceptions above. *)

Inductive exception : Type :=
  | KeyError (key : string)
  | ImproperlyConfigured (msg : string)
  | Other (e : exn).

Inductive outcome (A : Type) : Type :=
  | Returns (a : A)
  | Raises (e : exception).
Arguments Returns {A} a.
Arguments Raises {A} e.

#[global] Instance outcome_bind : MBind outcome := λ A B k r,
  match r with
  | Returns a => k a
  | Raises e => Raises e
  end.

(** A [dict] whose order of insertion matters: the items in that order. *)
Abbreviation dict V := (list (string * V)).

(** [d[key]] *)
Fixpoint dict_get {V : Type} (d : dict V) (key : string) : outcome V :=
  match d with
  | [] => Raises (KeyError key)
  | (k, v) :: d' => if String.eqb k key then Returns v else dict_get d' key
  end.

(** ** fields/models.py: DateField *)

Definition DATE_FORMAT : dict (dict string) :=
  [("EU", [("name", "European (D/M/Y)"); ("format", "%d/%m/%Y");
           ("sql", "DD/MM/YYYY")]);
   ("US", [("name", "US (M/D/Y)"); ("format", "%m/%d/%Y");
           ("sql", "MM/DD/YYYY")]);
   ("ISO", [("name", "ISO (Y-M-D)"); ("format", "%Y-%m-%d");
            ("sql", "YYYY-MM-DD")])].

Definition DATE_TIME_FORMAT : dict (dict string) :=
  [("24", [("name", "24 hour"); ("format", "%H:%M"); ("sql", "HH24:MI")]);
   ("12", [("name", "12 hour"); ("format", "%I:%M %p");
           ("sql", "HH12:MIAM")])].

(** [[(k, v["name"]) for k, v in d.items()]] *)
Fixpoint format_choices (d : dict (dict string)) : outcome (list (string * string)) :=
  match d with
  | [] => Returns []
  | (k, v) :: d' =>
      name ← dict_get v "name";
      rest ← format_choices d';
      Returns ((k, name) :: rest)
  end.

Definition DATE_FORMAT_CHOICES : outcome (list (string * string)) :=
  format_choices DATE_FORMAT.

Definition DATE_TIME_FORMAT_CHOICES : outcome (list (string * string)) :=
  format_choices DATE_TIME_FORMAT.

(** [DateField._get_format] *)
Definition _get_format (self : DateField) (format_type : string)
  : outcome string :=
  formats ← dict_get DATE_FORMAT (date_format self);
  date_format ← dict_get formats format_type;
  formats ← dict_get DATE_TIME_FORMAT (date_time_format self);
  time_format ← dict_get formats format_type;
  if date_include_time self
  then Returns (date_format +:+ " " +:+ time_format)
  else Returns date_format.

(** [DateField.get_python_format] *)
Definition get_python_format (self : DateField) : outcome string :=
  _get_format self "format".

(** [DateField.get_psql_format] *)
Definition get_psql_format (self : DateField) : outcome string :=
  _get_format self "sql".

(** [DateField.get_psql_type] *)
Definition get_psql_type (self : DateField) : string :=
  if date_include_time self then "timestamp" else "date".

(** [DateField.get_psql_type_convert_function] *)
Definition get_psql_type_convert_function (self : DateField) : string :=
  if date_include_time self then "TO_TIMESTAMP" else "TO_DATE".

(** ** fields/models.py: LinkRowField *)

(** The [LinkRowField] rows of the database, trashed ones included
    ([objects_and_trash]), by primary key. *)
Abbreviation link_row_fields := (gmap Z LinkRowField).

Definition THROUGH_DATABASE_TABLE_PREFIX : string := "database_relation_".

(** [models.Max] over a column: [None] when there is no value. *)
Definition aggregate_max (values : list Z) : option Z :=
  foldr (λ x acc, Some (match acc with Some m => Z.max x m | None => x end))
    None values.

(** The [link_row_relation_id] column without its NULLs. *)
Definition relation_ids (db : link_row_fields) : list Z :=
  omap link_row_relation_id (map_to_list db).*2.

(** [x or 0] for an optional integer. *)
Definition or_zero (x : option Z) : Z :=
  match x with
  | Some m => if m =? 0 then 0 else m
  | None => 0
  end.

(** [LinkRowField.get_new_relation_id] *)
Definition get_new_relation_id (db : link_row_fields) : Z :=
  let last_id := or_zero (aggregate_max (relation_ids db)) in
  last_id + 1.

(** [LinkRowField.save]: the relation id is set when it is absent, then
    [super().save()] is called.  [super_save] stands for that call,
    Django's [Model.save], on the field as it is by then; the field as it
    is after the call is returned next to what the parent's call gives. *)
Definition link_row_save {R : Type}
    (super_save : LinkRowField → link_row_fields → R)
    (self : LinkRowField) (db : link_row_fields) : LinkRowField * R :=
  let self :=
    match link_row_relation_id self with
    | None =>
        mkLinkRowField (link_row_base self) (link_row_table self)
          (link_row_related_field self) (Some (get_new_relation_id db))
    | Some _ => self
    end in
  (self, super_save self db).

(** [LinkRowField.through_table_name] *)
Definition through_table_name (self : LinkRowField) : result string :=
  match link_row_relation_id self with
  | Some n =>
      if n =? 0
      then Raise (ValueError
                    "The link row field does not yet have a relation id.")
      else Ok (THROUGH_DATABASE_TABLE_PREFIX +:+ pretty n)
  | None =>
      Raise (ValueError "The link row field does not yet have a relation id.")
  end.

(** ** fields/field_types.py: the columns of a number field *)

(** The keyword arguments [get_serializer_field] sets itself. *)
Record serializer_kwargs : Type := mkSerializerKwargs {
  required : bool;
  allow_null : bool;
  min_value : option Z
}.

Inductive serializer_field : Type :=
  | SerializerIntegerField (kwargs : serializer_kwargs)
  | SerializerDecimalField (decimal_places max_digits : Z)
      (kwargs : serializer_kwargs).

Record model_kwargs : Type := mkModelKwargs {
  null : bool;
  blank : bool
}.

Inductive model_field : Type :=
  | ModelIntegerField (kwargs : model_kwargs)
  | ModelDecimalField (decimal_places max_digits : Z) (kwargs : model_kwargs).

(** [NumberFieldType.get_serializer_field]; [None] is the [None] Python
    returns when neither branch is taken. *)
Definition get_serializer_field (instance : NumberField)
  : option serializer_field :=
  let kwargs :=
    mkSerializerKwargs false true
      (if negb (number_negative instance) then Some 0 else None) in
  if String.eqb (number_type instance) NUMBER_TYPE_INTEGER then
    Some (SerializerIntegerField kwargs)
  else if String.eqb (number_type instance) NUMBER_TYPE_DECIMAL then
    Some (SerializerDecimalField (number_decimal_places instance)
            (MAX_DIGITS + number_decimal_places instance) kwargs)
  else None.

(** [NumberFieldType.get_model_field] *)
Definition get_model_field (instance : NumberField) : option model_field :=
  let kwargs := mkModelKwargs true true in
  if String.eqb (number_type instance) NUMBER_TYPE_INTEGER then
    Some (ModelIntegerField kwargs)
  else if String.eqb (number_type instance) NUMBER_TYPE_DECIMAL then
    Some (ModelDecimalField (number_decimal_places instance)
            (MAX_DIGITS + number_decimal_places instance) kwargs)
  else None.

(** [NumberFieldType.get_alter_column_type_function]; [super_function] is
    what the method of the parent class returns for the other vendors. *)
Definition get_alter_column_type_function (super_function : option string)
    (vendor : string) (instance : NumberField) : option string :=
  if String.eqb vendor "postgresql" then
    let decimal_places :=
      if String.eqb (number_type instance) NUMBER_TYPE_DECIMAL
      then number_decimal_places instance else 0 in
    let function :=
      "round(p_in::numeric, " +:+ pretty decimal_places +:+ ")" in
    let function :=
      if negb (number_negative instance)
      then "greatest(" +:+ function +:+ ", 0)" else function in
    Some function
  else super_function.

(** ** core/registry.py: the rest of Registry *)

(** [Registry.__init__]; [name] is the class attribute, [None] unless a
    subclass sets it. *)
Definition Registry_init (name : option string) : outcome Registry :=
  match name with
  | Some n =>
      if String.eqb n ""
      then Raises (ImproperlyConfigured
                     "The name must be set on an InstanceModelRegistry to raise proper errors.")
      else Returns (mkRegistry n ∅)
  | None =>
      Raises (ImproperlyConfigured
                "The name must be set on an InstanceModelRegistry to raise proper errors.")
  end.

(** One turn of the loop of [unregister]: [if instance == value: value =
    type_name].  Instances compare by identity, which the record of an
    instance's attributes does not show: [is_value type_name] tells whether
    the object stored under [type_name] is the very object that was handed
    to [unregister].  A [value] that is a name by now equals no
    instance. *)
Definition unregister_step (is_value : string → bool) (value : pyobj)
    (item : string * Instance) : pyobj :=
  match value with
  | AnInstance _ =>
      if is_value item.1 then NotAnInstance (PyStr item.1) else value
  | NotAnInstance _ => value
  end.

(** [Registry.unregister]; the registry after the call is returned next to
    the outcome.  The items of the [gmap] are walked in its own order. *)
Definition unregister (is_value : string → bool) (self : Registry)
    (value : pyobj) : outcome unit * Registry :=
  let value :=
    match value with
    | AnInstance _ =>
        foldl (unregister_step is_value) value (map_to_list (registry self))
    | NotAnInstance _ => value
    end in
  match value with
  | NotAnInstance (PyStr s) =>
      match registry self !! s with
      | Some _ => (Returns (), mkRegistry (name self) (delete s (registry self)))
      | None => (Raises (KeyError s), self)
      end
  | _ =>
      (Raises (Other (ValueError ("The value must either be an " +:+ name self
                                  +:+ " instance or type name"))), self)
  end.

(** * Properties *)

(** ** Shared facts *)

Lemma nonzero_of_neg (z : Z) : z < 0 → nonzero z = true.
Proof. intros H. unfold nonzero. destruct (Z.eqb_spec z 0); [lia | done]. Qed.

Lemma db_column_inj (f g : Field) :
  db_column f = db_column g ↔ field_id f = field_id g.
Proof.
  unfold db_column. split.
  - intros H. apply (inj (String.app "field_")) in H.
    by apply (inj pretty) in H.
  - by intros ->.
Qed.

Lemma bind_Ok {A B : Type} (a : A) (k : A → result B) : (Ok a ≫= k) = k a.
Proof. reflexivity. Qed.

Lemma bind_Raise {A B : Type} (e : exn) (k : A → result B) :
  (Raise e ≫= k) = Raise e.
Proof. reflexivity. Qed.

(** ** Field.db_column *)

(** C8: whatever its type, and so also when its type changes, a field's
    column name is ["field_<id>"], made from its id alone; two fields have
    the same column name exactly when they have the same id, so fields with
    distinct ids never share one. *)
Theorem db_column_of_id (f g : SpecificField) :
  specific_db_column f = "field_" +:+ pretty (field_id (base f))
  ∧ (specific_db_column f = specific_db_column g
     ↔ field_id (base f) = field_id (base g)).
Proof.
  split; [reflexivity |]. unfold specific_db_column. apply db_column_inj.
Qed.

(** ** Registry *)

(** C5: [register] of an instance raises the already-registered exception
    exactly when its type is a key of the registry, and leaves the registry
    as it was then; otherwise it stores the instance under its type.
    [get] raises the does-not-exist exception exactly when the name is no
    key, and returns the stored instance otherwise. *)
Theorem register_get_contract (self : Registry) (i : Instance) (tag : string) :
  ((∃ msg, (register self (AnInstance i)).1
           = Raise (InstanceTypeAlreadyRegistered msg))
   ↔ is_Some (registry self !! type i))
  ∧ (is_Some (registry self !! type i)
     → (register self (AnInstance i)).2 = self)
  ∧ (registry self !! type i = None
     → (register self (AnInstance i)).1 = Ok ()
       ∧ get (register self (AnInstance i)).2 (type i) = Ok i)
  ∧ ((∃ msg, get self tag = Raise (InstanceTypeDoesNotExist msg))
     ↔ registry self !! tag = None)
  ∧ (∀ instance, registry self !! tag = Some instance
                 ↔ get self tag = Ok instance).
Proof.
  unfold register, get. split_and!.
  - split.
    + intros [msg H]. destruct (registry self !! type i); [eauto | discriminate].
    + intros [x ->]. simpl. eauto.
  - intros [x ->]. reflexivity.
  - intros ->. simpl. by rewrite lookup_insert_eq.
  - split.
    + intros [msg H]. destruct (registry self !! tag); [discriminate | done].
    + intros ->. eauto.
  - intros instance. split.
    + by intros ->.
    + destruct (registry self !! tag); [by intros [= ->] | discriminate].
Qed.

(** The contract at work on the registry holding a ["number"] type. *)
Lemma register_get_contract_witness :
  let number := mkInstance "number" (Some "NumberField") in
  let self := mkRegistry "field" {[ "number" := number ]} in
  (register self (AnInstance number)).2 = self
  ∧ get self "number" = Ok number.
Proof.
  intros number self.
  destruct (register_get_contract self number "number")
    as (_ & Hsame & _ & _ & Hget).
  split.
  - apply Hsame. exists number. reflexivity.
  - apply Hget. reflexivity.
Defined.

(** ** NumberFieldType.prepare_value_for_db *)

Lemma to_Decimal_negative (parse : string → option Decimal) (v : pyval) :
  is_negative v →
  ∃ d, to_Decimal parse v = Ok d ∧ is_negative (PyDecimal d)
       ∧ truthy (PyDecimal d) = true.
Proof.
  unfold is_negative.
  destruct v as [ | b | z | [m e | [] | ] | s | [c e | [] | ]];
    simpl; intros H; try discriminate.
  - exists (DFinite z 0). simpl. injection H as H.
    split_and!; [done | by rewrite H |]. apply nonzero_of_neg. lia.
  - injection H as H. apply Z.ltb_lt in H.
    destruct (0 <=? e) eqn:He; eexists; (split; [reflexivity |]); simpl.
    + apply Z.leb_le in He.
      assert (m * 2 ^ e < 0) by (apply Z.mul_neg_pos; [done | by apply Z.pow_pos_nonneg]).
      split; [f_equal; by apply Z.ltb_lt | by apply nonzero_of_neg].
    + apply Z.leb_gt in He.
      assert (m * 5 ^ (- e) < 0)
        by (apply Z.mul_neg_pos; [done | apply Z.pow_pos_nonneg; lia]).
      split; [f_equal; by apply Z.ltb_lt | by apply nonzero_of_neg].
  - by exists (DInf true).
  - exists (DFinite c e). simpl. injection H as H.
    split_and!; [done | by rewrite H |]. apply nonzero_of_neg. lia.
  - by exists (DInf true).
Qed.

Lemma truthy_negative (v : pyval) : is_negative v → truthy v = true.
Proof.
  unfold is_negative.
  destruct v as [ | b | z | [m e | [] | ] | s | [c e | [] | ]];
    simpl; intros H; try discriminate; try done;
    injection H as H; apply nonzero_of_neg; lia.
Qed.

Lemma prepare_negative_string (parse : string → option Decimal)
    (instance : NumberField) (s : string) (d : Decimal) :
  s ≠ "" → parse s = Some d → is_negative (PyDecimal d) →
  number_type instance = NUMBER_TYPE_DECIMAL →
  number_negative instance = false →
  prepare_value_for_db parse instance (PyStr s)
  = Raise (ValidationError
             ("The value for field "
              +:+ pretty (field_id (number_base instance))
              +:+ " cannot be negative.")).
Proof.
  intros Hs Hparse Hneg Ht Hn.
  pose proof (truthy_negative _ Hneg) as Htruthy.
  unfold is_negative in Hneg.
  unfold prepare_value_for_db. rewrite Ht, Hn.
  change (String.eqb NUMBER_TYPE_DECIMAL NUMBER_TYPE_DECIMAL) with true.
  cbn [truthy to_Decimal]. destruct (String.eqb_spec s ""); [done |].
  cbn [negb andb]. rewrite Hparse, !bind_Ok.
  change (truthy (PyDecimal d) = true) in Htruthy.
  by rewrite Htruthy, andb_true_l, Hneg.
Qed.

(** C3: on a number field that does not allow negatives, a negative value
    (an [int], [float] or [Decimal] below zero) is refused with the
    [ValidationError] whose message carries the field's id; on one that
    allows them the value is accepted: returned as it is, or as the
    [Decimal] of it on a DECIMAL field, and still negative.  A string that
    reads as a negative decimal is refused in the same way on a DECIMAL
    field. *)
Theorem negative_value_validation (parse : string → option Decimal)
    (instance : NumberField) (value : pyval) :
  is_negative value →
  (number_negative instance = false →
   prepare_value_for_db parse instance value
   = Raise (ValidationError
              ("The value for field "
               +:+ pretty (field_id (number_base instance))
               +:+ " cannot be negative.")))
  ∧ (number_negative instance = true →
     ∃ v', prepare_value_for_db parse instance value = Ok v'
           ∧ is_negative v'
           ∧ (number_type instance ≠ NUMBER_TYPE_DECIMAL → v' = value)
           ∧ (number_type instance = NUMBER_TYPE_DECIMAL →
              ∃ d, to_Decimal parse value = Ok d ∧ v' = PyDecimal d))
  ∧ (∀ (s : string) (d : Decimal),
       s ≠ "" → parse s = Some d → is_negative (PyDecimal d) →
       number_type instance = NUMBER_TYPE_DECIMAL →
       number_negative instance = false →
       prepare_value_for_db parse instance (PyStr s)
       = Raise (ValidationError
                  ("The value for field "
                   +:+ pretty (field_id (number_base instance))
                   +:+ " cannot be negative."))).
Proof.
  intros Hneg. apply and_assoc.
  split; [| exact (prepare_negative_string parse instance)].
  pose proof (truthy_negative _ Hneg) as Htruthy.
  destruct (to_Decimal_negative parse _ Hneg) as (d & Hd & Hdneg & Hdtruthy).
  unfold prepare_value_for_db. rewrite Htruthy, !andb_true_l.
  unfold is_negative in Hneg, Hdneg.
  destruct (String.eqb_spec (number_type instance) NUMBER_TYPE_DECIMAL) as [Ht | Ht].
  - rewrite Hd, !bind_Ok, Hdtruthy, andb_true_l.
    split; intros ->; cbn [negb].
    + by rewrite Hdneg.
    + exists (PyDecimal d). split_and!; [done | done | done | eauto].
  - rewrite bind_Ok, Htruthy, andb_true_l.
    split; intros ->; cbn [negb].
    + by rewrite Hneg.
    + exists value. split_and!; [done | done | done | done].
Qed.

(** The value -5 of the specification, on a field with id 7. *)
Lemma negative_value_validation_witness :
  prepare_value_for_db (λ _, None)
    (mkNumberField (mkField 7 1 0 "Speed" false) "INTEGER" 1 false) (PyInt (-5))
  = Raise (ValidationError "The value for field 7 cannot be negative.")
  ∧ ∃ v', prepare_value_for_db (λ _, None)
            (mkNumberField (mkField 7 1 0 "Speed" false) "INTEGER" 1 true)
            (PyInt (-5)) = Ok v'
          ∧ is_negative v'.
Proof.
  split.
  - apply (negative_value_validation (λ _, None)
             (mkNumberField (mkField 7 1 0 "Speed" false) "INTEGER" 1 false)
             (PyInt (-5))); reflexivity.
  - destruct (negative_value_validation (λ _, None)
                (mkNumberField (mkField 7 1 0 "Speed" false) "INTEGER" 1 true)
                (PyInt (-5))) as (_ & H & _); [reflexivity |].
    destruct (H eq_refl) as (v' & Hv & Hn & _). exists v'. by split.
Defined.

(** C9: a falsy value ([None], [0], the empty string, ...) comes back
    unchanged from any number field, whether or not the field allows
    negatives; and on an INTEGER field no value is turned into a
    [Decimal]: the outcome does not depend on the decimal parser, and a
    value that is accepted is returned as it was passed. *)
Theorem prepare_value_for_db_falsy_and_integer
    (parse parse' : string → option Decimal) (instance : NumberField)
    (value : pyval) :
  (truthy value = false → prepare_value_for_db parse instance value = Ok value)
  ∧ prepare_value_for_db parse instance PyNone = Ok PyNone
  ∧ prepare_value_for_db parse instance (PyInt 0) = Ok (PyInt 0)
  ∧ prepare_value_for_db parse instance (PyStr "") = Ok (PyStr "")
  ∧ (number_type instance = NUMBER_TYPE_INTEGER →
     prepare_value_for_db parse instance value
     = prepare_value_for_db parse' instance value
     ∧ ∀ v', prepare_value_for_db parse instance value = Ok v' → v' = value).
Proof.
  split_and!; try reflexivity.
  - intros H. unfold prepare_value_for_db.
    by rewrite H, andb_false_l, bind_Ok, H.
  - intros Ht. unfold prepare_value_for_db. rewrite Ht.
    change (String.eqb NUMBER_TYPE_INTEGER NUMBER_TYPE_DECIMAL) with false.
    rewrite andb_false_r, !bind_Ok. split; [done |].
    intros v'. destruct (truthy value && negb (number_negative instance));
      [| by intros [= <-]].
    destruct (lt_zero value) as [[] | e]; simpl; [done | by intros [= <-] | done].
Qed.

(** Zero on an INTEGER field that does not allow negatives. *)
Lemma prepare_value_for_db_falsy_and_integer_witness :
  prepare_value_for_db (λ _, None)
    (mkNumberField (mkField 7 1 0 "Speed" false) "INTEGER" 1 false) (PyInt 0)
  = Ok (PyInt 0).
Proof.
  apply (prepare_value_for_db_falsy_and_integer (λ _, None) (λ _, None)
           (mkNumberField (mkField 7 1 0 "Speed" false) "INTEGER" 1 false)
           (PyInt 0)).
  reflexivity.
Defined.

(** ** NumberFieldType.after_update *)

Lemma filter_lt_zero_update_zero_lookup (column : string) (model : list row)
    (i : nat) :
  filter_lt_zero_update_zero column model !! i
  = (λ r : row, if sql_lt_zero (r !! column) then <[column := PyInt 0]> r else r)
      <$> model !! i.
Proof. unfold filter_lt_zero_update_zero. apply list_lookup_fmap. Qed.

(** C4: when the column was not altered and [number_negative] went from
    true to false, [after_update] keeps the rows in place and, row by row,
    sets the field's column to 0 where the stored value is below zero and
    leaves the row as it is where it is not; in every other case the
    table is returned as it was. *)
Theorem after_update_negatives_to_zero (field old_field : NumberField)
    (model : list row) (altered_column : bool) :
  let column := db_column (number_base field) in
  let model' := after_update field old_field model altered_column in
  (altered_column = false ∧ number_negative old_field = true
   ∧ number_negative field = false →
   length model' = length model
   ∧ ∀ (i : nat) (r : row), model !! i = Some r →
       ∃ r' : row, model' !! i = Some r'
         ∧ (sql_lt_zero (r !! column) = true →
            r' = <[column := PyInt 0]> r ∧ r' !! column = Some (PyInt 0))
         ∧ (sql_lt_zero (r !! column) = false → r' = r))
  ∧ (altered_column = true ∨ number_negative old_field = false
     ∨ number_negative field = true → model' = model).
Proof.
  intros column model'. subst model'. unfold after_update. split.
  - intros (-> & -> & ->). cbn [negb andb]. fold column. split.
    + unfold filter_lt_zero_update_zero. apply length_fmap.
    + intros i r Hr. rewrite filter_lt_zero_update_zero_lookup, Hr.
      eexists. split; [reflexivity |].
      destruct (sql_lt_zero (r !! column)); split; try done.
      intros _. split; [done | apply lookup_insert_eq].
  - intros [-> | [-> | ->]]; [done | by rewrite andb_false_r |].
    by rewrite andb_false_r.
Qed.

(** A table with a negative, a positive and an empty cell in [field_4]. *)
Lemma after_update_negatives_to_zero_witness :
  after_update
    (mkNumberField (mkField 4 1 0 "Speed" false) "INTEGER" 1 false)
    (mkNumberField (mkField 4 1 0 "Speed" false) "INTEGER" 1 true)
    [ {[ "field_4" := PyInt (-3) ]}; {[ "field_4" := PyInt 8 ]};
      {[ "field_4" := PyNone ]} ] false !! 0%nat
  = Some {[ "field_4" := PyInt 0 ]}.
Proof.
  destruct (after_update_negatives_to_zero
              (mkNumberField (mkField 4 1 0 "Speed" false) "INTEGER" 1 false)
              (mkNumberField (mkField 4 1 0 "Speed" false) "INTEGER" 1 true)
              [ {[ "field_4" := PyInt (-3) ]}; {[ "field_4" := PyInt 8 ]};
                {[ "field_4" := PyNone ]} ] false) as [H _].
  destruct H as [_ H]; [done |].
  destruct (H 0%nat {[ "field_4" := PyInt (-3) ]} eq_refl) as (r' & -> & Hneg & _).
  destruct Hneg as [-> _]; reflexivity.
Defined.

(** ** NumberField.save *)

Lemma number_type_check (s : string) :
  any_in_tuple (PyStr s) NUMBER_TYPE_CHOICES = true
  ↔ s = "INTEGER" ∨ s = "Integer" ∨ s = "DECIMAL" ∨ s = "Decimal".
Proof.
  unfold any_in_tuple, NUMBER_TYPE_CHOICES, in_tuple. cbn [existsb fst snd py_eq].
  destruct (String.eqb_spec s "INTEGER"), (String.eqb_spec s "Integer"),
    (String.eqb_spec s "DECIMAL"), (String.eqb_spec s "Decimal");
    cbn [orb]; split; intros H; try done; try tauto; try (by destruct H as [|[|[|]]]).
Qed.

Lemma number_decimal_places_check (n : Z) :
  any_in_tuple (PyInt n) NUMBER_DECIMAL_PLACES_CHOICES = true ↔ 1 ≤ n ≤ 5.
Proof.
  unfold any_in_tuple, NUMBER_DECIMAL_PLACES_CHOICES, in_tuple.
  cbn [existsb fst snd py_eq].
  destruct (Z.eqb_spec n 1), (Z.eqb_spec n 2), (Z.eqb_spec n 3),
    (Z.eqb_spec n 4), (Z.eqb_spec n 5); cbn [orb]; split; intros H;
    try done; lia.
Qed.

(** What [save] does check: the field is written exactly when its
    [number_type] is a member of one of the choice pairs, value or label,
    and its [number_decimal_places] is one of 1 to 5; a refusal is a
    [ValueError] and leaves the store as it was. *)
Lemma save_checks (self : NumberField) (db : number_fields) :
  ((save self db).1 = Ok ()
   ↔ (number_type self = "INTEGER" ∨ number_type self = "Integer"
      ∨ number_type self = "DECIMAL" ∨ number_type self = "Decimal")
     ∧ 1 ≤ number_decimal_places self ≤ 5)
  ∧ ((save self db).1 = Ok () →
     (save self db).2 = <[field_id (number_base self) := self]> db)
  ∧ ((save self db).1 ≠ Ok () →
     (∃ msg, (save self db).1 = Raise (ValueError msg)) ∧ (save self db).2 = db).
Proof.
  unfold save.
  pose proof (number_type_check (number_type self)) as Ht.
  pose proof (number_decimal_places_check (number_decimal_places self)) as Hp.
  destruct (any_in_tuple (PyStr (number_type self)) NUMBER_TYPE_CHOICES);
    destruct (any_in_tuple (PyInt (number_decimal_places self))
                NUMBER_DECIMAL_PLACES_CHOICES); cbn [negb fst snd];
    split_and!; try done; try (intros _; split; [eauto | done]).
  - split; [intros _ | done]. split; [by apply Ht | by apply Hp].
  - split; [done |]. intros [_ H]. apply Hp in H. discriminate.
  - split; [done |]. intros [H _]. apply Ht in H. discriminate.
  - split; [done |]. intros [H _]. apply Ht in H. discriminate.
Qed.

(** C10: [save] is meant to refuse every [number_type] other than INTEGER
    and DECIMAL, but it tests membership in the whole choice pair, so the
    display label ["Integer"] passes: the field below is written with a
    [number_type] that is neither.  The check of the decimal places is
    exact: nothing outside 1 to 5 is ever written. *)
Theorem save_accepts_choice_label :
  let self := mkNumberField (mkField 1 1 0 "Speed" false) "Integer" 1 false in
  save self ∅ = (Ok (), {[ 1 := self ]})
  ∧ number_type self ≠ NUMBER_TYPE_INTEGER
  ∧ number_type self ≠ NUMBER_TYPE_DECIMAL
  ∧ ∀ (other : NumberField) (db : number_fields),
      (save other db).1 = Ok () → 1 ≤ number_decimal_places other ≤ 5.
Proof.
  split_and!; [reflexivity | discriminate | discriminate |].
  intros other db H. by apply (save_checks other db) in H as [_ H].
Qed.

(** ** The row handler against its tests

    Every order that [test_create_row] and [test_move_row] assert, and the
    value they read back from the price column, recomputed by the model. *)

Section Replay.
Import TestRowsHandler.

(** test_create_row, lines 134 to 154: the first row, as it is read back
    from the table. *)
Example test_create_row_first :
  id_orders after_row_1 = [(1, 100000000000000000000)]
  ∧ (λ r, cells r !! "field_3") <$> after_row_1
    = [Some (PyDecimal (DFinite 5999999 (-2)))]
  ∧ (λ r, cells r !! "field_2") <$> after_row_1 = [Some (PyInt 240)]
  ∧ (λ r, cells r !! "field_9999") <$> after_row_1 = [None].
Proof. vm_compute. done. Qed.

(** lines 144 to 148: the instance the call returns still holds the price
    as validated, equal to the float that was passed. *)
Example test_create_row_returned :
  match (create values_1 None 1 []).1 with
  | Ok row_1 =>
      (λ v, py_eq v (PyFloat float_59999_99)) <$> cells row_1 !! "field_3"
      = Some true
      ∧ cells row_1 !! "field_2" = Some (PyInt 240)
      ∧ order row_1 = 100000000000000000000
  | Raise _ => False
  end.
Proof. vm_compute. done. Qed.

(** lines 163 to 169 *)
Example test_create_row_second :
  id_orders after_row_2
  = [(1, 100000000000000000000); (2, 200000000000000000000)].
Proof. vm_compute. done. Qed.

(** lines 171 to 176 *)
Example test_create_row_third :
  id_orders after_row_3
  = [(1, 100000000000000000000); (2, 200000000000000000000);
     (3, 199999999999999999999)].
Proof. vm_compute. done. Qed.

(** lines 179 to 186 *)
Example test_create_row_fourth :
  id_orders after_row_4
  = [(1, 100000000000000000000); (2, 200000000000000000000);
     (3, 199999999999999999998); (4, 199999999999999999999)].
Proof. vm_compute. done. Qed.

(** lines 188 to 197 *)
Example test_create_row_fifth :
  id_orders after_row_5
  = [(1, 100000000000000000000); (2, 200000000000000000000);
     (3, 199999999999999999998); (4, 199999999999999999999);
     (5, 199999999999999999997)].
Proof. vm_compute. done. Qed.

(** lines 199 to 210 *)
Example test_create_row_sixth :
  id_orders after_row_6
  = [(1, 100000000000000000000); (2, 200000000000000000000);
     (3, 199999999999999999997); (4, 199999999999999999998);
     (5, 199999999999999999996); (6, 199999999999999999999)].
Proof. vm_compute. done. Qed.

(** lines 212 to 225 *)
Example test_create_row_seventh :
  id_orders after_row_7
  = [(1, 100000000000000000000); (2, 200000000000000000000);
     (3, 199999999999999999997); (4, 199999999999999999998);
     (5, 199999999999999999996); (6, 199999999999999999999);
     (7, 99999999999999999999)].
Proof. vm_compute. done. Qed.

(** lines 227 to 233: the refused price leaves the seven rows. *)
Example test_create_row_refused :
  create {[ 3 := PyFloat float_minus_10_22 ]} None 8 after_row_7
  = (Raise (ValidationError "The value for field 3 cannot be negative."),
     after_row_7).
Proof. vm_compute. done. Qed.

(** lines 242 to 244 *)
Example test_create_row_after_delete :
  id_orders after_row_8
  = [(1, 100000000000000000000); (3, 199999999999999999997);
     (4, 199999999999999999998); (5, 199999999999999999996);
     (6, 199999999999999999999); (7, 99999999999999999999);
     (8, 300000000000000000000)].
Proof. vm_compute. done. Qed.

(** test_move_row, lines 377 to 383 and 398 to 404 *)
Example test_move_row_orders :
  id_orders moved_last
  = [(1, 400000000000000000000); (2, 200000000000000000000);
     (3, 300000000000000000000)]
  ∧ id_orders moved_before_3
    = [(1, 299999999999999999999); (2, 200000000000000000000);
       (3, 300000000000000000000)].
Proof. vm_compute. done. Qed.

End Replay.

(** ** Row ordering *)

Lemma ORDER_SCALE_pos : 0 < ORDER_SCALE.
Proof. reflexivity. Qed.

Lemma ceil_order_bounds (o : Z) :
  o ≤ ceil_order o < o + ORDER_SCALE ∧ ceil_order o mod ORDER_SCALE = 0.
Proof.
  unfold ceil_order. pose proof ORDER_SCALE_pos as Hpos.
  pose proof (Z.div_mod (- o) ORDER_SCALE ltac:(lia)) as Hdm.
  pose proof (Z.mod_pos_bound (- o) ORDER_SCALE Hpos) as Hr.
  split; [nia |]. apply Z.mod_mul. lia.
Qed.

Lemma ceil_order_whole (o : Z) : o mod ORDER_SCALE = 0 → ceil_order o = o.
Proof.
  intros H. unfold ceil_order. pose proof ORDER_SCALE_pos as Hpos.
  apply Z.mod_divide in H as [q ->]; [| lia].
  rewrite <- Z.mul_opp_l, Z.div_mul by lia. lia.
Qed.

Lemma max_order_nil (rows : list Row) : max_order rows = None ↔ rows = [].
Proof. by destruct rows. Qed.

Lemma max_order_upper (rows : list Row) (m : Z) :
  max_order rows = Some m → ∀ r, r ∈ rows → order r ≤ m.
Proof.
  revert m. induction rows as [| x rows IH]; intros m Hm r Hr.
  - by apply elem_of_nil in Hr.
  - simpl in Hm. apply elem_of_cons in Hr.
    destruct (max_order rows) as [m' |] eqn:Hrows.
    + injection Hm as <-. destruct Hr as [-> | Hr]; [lia |].
      specialize (IH m' eq_refl r Hr). lia.
    + injection Hm as <-. destruct Hr as [-> | Hr]; [lia |].
      apply max_order_nil in Hrows. subst rows. by apply elem_of_nil in Hr.
Qed.

(** C2, as the specification words it, fails: in the table
    [test_create_row] ends with, where row 2 is deleted and 1.99999999999999999999
    is the highest order left, the appended row gets 3 and not the highest
    order plus one; and in a table of the rows 1 and 2, deleting row 2 and
    appending gives the order 2 again. *)
Lemma append_not_max_plus_one :
  append TestRowsHandler.after_delete = 300000000000000000000
  ∧ append_spec TestRowsHandler.after_delete = 299999999999999999999
  ∧ append TestRowsHandler.after_delete
    ≠ append_spec TestRowsHandler.after_delete
  ∧ append (delete_row (mkRow 2 200000000000000000000 ∅)
              [mkRow 1 100000000000000000000 ∅; mkRow 2 200000000000000000000 ∅])
    = order (mkRow 2 200000000000000000000 ∅).
Proof. vm_compute. split_and!; done. Qed.

(** C2, amended: [append] gives 1 on an empty table and otherwise the whole
    number the highest order rounds up to, plus 1; that is the highest
    order plus 1 when the highest order is whole, and it is above every
    order in the table.  After a row is deleted the same holds of the rows
    that remain, and the new order differs from the deleted row's whenever
    a remaining row lies less than 1 below the deleted row or above it. *)
Theorem append_next_whole_number (rows : list Row) (deleted : Row) :
  append [] = 1 * ORDER_SCALE
  ∧ (∀ m, max_order rows = Some m →
          append rows = ceil_order m + 1 * ORDER_SCALE
          ∧ (m mod ORDER_SCALE = 0 → append rows = m + 1 * ORDER_SCALE)
          ∧ ∀ r, r ∈ rows → order r < append rows)
  ∧ (∀ m, max_order (delete_row deleted rows) = Some m →
          append (delete_row deleted rows) = ceil_order m + 1 * ORDER_SCALE
          ∧ ((∃ r, r ∈ delete_row deleted rows
                   ∧ order deleted - 1 * ORDER_SCALE < order r) →
             append (delete_row deleted rows) ≠ order deleted)).
Proof.
  assert (Happ : ∀ l m, max_order l = Some m →
            append l = ceil_order m + 1 * ORDER_SCALE).
  { intros l m H. unfold append. rewrite H. simpl. lia. }
  split_and!; [reflexivity | |].
  - intros m Hm. split_and!; [by apply Happ | |].
    + intros Hw. rewrite (Happ _ _ Hm), ceil_order_whole; done.
    + intros r Hr. rewrite (Happ _ _ Hm).
      pose proof (max_order_upper _ _ Hm r Hr).
      pose proof (ceil_order_bounds m). pose proof ORDER_SCALE_pos. lia.
  - intros m Hm. split; [by apply Happ |].
    intros (r & Hr & Hnear). rewrite (Happ _ _ Hm).
    pose proof (max_order_upper _ _ Hm r Hr).
    pose proof (ceil_order_bounds m). lia.
Qed.

(** The table of the test, row 2 deleted. *)
Lemma append_next_whole_number_witness :
  append (delete_row (mkRow 2 200000000000000000000 ∅)
            [mkRow 1 100000000000000000000 ∅;
             mkRow 6 199999999999999999999 ∅;
             mkRow 2 200000000000000000000 ∅])
  = ceil_order 199999999999999999999 + 1 * ORDER_SCALE
  ∧ append (delete_row (mkRow 2 200000000000000000000 ∅)
              [mkRow 1 100000000000000000000 ∅;
               mkRow 6 199999999999999999999 ∅;
               mkRow 2 200000000000000000000 ∅])
    ≠ 200000000000000000000.
Proof.
  destruct (append_next_whole_number
              [mkRow 1 100000000000000000000 ∅;
               mkRow 6 199999999999999999999 ∅;
               mkRow 2 200000000000000000000 ∅]
              (mkRow 2 200000000000000000000 ∅)) as (_ & _ & H).
  destruct (H 199999999999999999999) as [Heq Hne]; [reflexivity |].
  split; [exact Heq |]. apply Hne.
  exists (mkRow 6 199999999999999999999 ∅). split; [| reflexivity].
  apply list_elem_of_lookup_2 with 1%nat. reflexivity.
Defined.

(** C1, as the specification words it, fails on the table of
    [test_create_row] with the rows 1 and 2: before row 2 the new order is
    1.99999999999999999999 (line 176) where the midpoint of 1 and 2 is 1.5,
    and before row 1, the first row, it is 0.99999999999999999999
    (line 225) where the order less an epsilon of 1 is 0. *)
Lemma insertBefore_not_midpoint :
  (insertBefore (mkRow 2 200000000000000000000 ∅)
     [mkRow 1 100000000000000000000 ∅; mkRow 2 200000000000000000000 ∅]).1
  = 199999999999999999999
  ∧ insertBefore_spec (mkRow 2 200000000000000000000 ∅)
      [mkRow 1 100000000000000000000 ∅; mkRow 2 200000000000000000000 ∅]
    = 150000000000000000000
  ∧ (insertBefore (mkRow 1 100000000000000000000 ∅)
       [mkRow 1 100000000000000000000 ∅; mkRow 2 200000000000000000000 ∅]).1
    = 99999999999999999999
  ∧ insertBefore_spec (mkRow 1 100000000000000000000 ∅)
      [mkRow 1 100000000000000000000 ∅; mkRow 2 200000000000000000000 ∅]
    = 0
  ∧ (insertBefore (mkRow 2 200000000000000000000 ∅)
       [mkRow 1 100000000000000000000 ∅; mkRow 2 200000000000000000000 ∅]).1
    ≠ insertBefore_spec (mkRow 2 200000000000000000000 ∅)
        [mkRow 1 100000000000000000000 ∅; mkRow 2 200000000000000000000 ∅]
  ∧ (insertBefore (mkRow 1 100000000000000000000 ∅)
       [mkRow 1 100000000000000000000 ∅; mkRow 2 200000000000000000000 ∅]).1
    ≠ insertBefore_spec (mkRow 1 100000000000000000000 ∅)
        [mkRow 1 100000000000000000000 ∅; mkRow 2 200000000000000000000 ∅].
Proof. vm_compute. split_and!; done. Qed.

Lemma orders_move_down (new_order : Z) (l : list Row) :
  Forall (λ o, floor_order new_order < o ≤ new_order) (orders l) →
  orders (move_down new_order <$> l) = Z.add (- change) <$> orders l.
Proof.
  unfold orders. induction l as [| r l IH]; [done |].
  rewrite !fmap_cons. intros H. apply Forall_cons in H as [Hr Hl].
  rewrite (IH Hl). f_equal. unfold move_down.
  destruct (Z.ltb_spec (floor_order new_order) (order r)); [| lia].
  destruct (Z.leb_spec (order r) new_order); [| lia].
  simpl. lia.
Qed.

Lemma insert_many_tail (target : Row) (ids : list Z) :
  ∀ pre tail : list Row,
    orders tail
    = seqZ (order target - Z.of_nat (length tail)) (Z.of_nat (length tail)) →
    floor_order (order target - change)
    < order target - Z.of_nat (length tail) - Z.of_nat (length ids) →
    ∃ pre' tail' : list Row,
      insert_many target ids (pre ++ tail) = pre' ++ tail'
      ∧ length pre' = length pre
      ∧ orders tail'
        = seqZ (order target - Z.of_nat (length tail) - Z.of_nat (length ids))
            (Z.of_nat (length tail) + Z.of_nat (length ids)).
Proof.
  unfold change.
  induction ids as [| i ids IH]; intros pre tail Htail Hroom.
  - exists pre, tail. simpl. split_and!; [done | done |].
    rewrite Htail. f_equal; lia.
  - cbn [insert_many insertBefore]. rewrite fmap_app, <- app_assoc.
    cbn [length] in Hroom. rewrite Nat2Z.inj_succ in Hroom.
    assert (Hdown : orders (move_down (order target - change) <$> tail)
                    = seqZ (order target - Z.of_nat (length tail) - 1)
                        (Z.of_nat (length tail))).
    { rewrite orders_move_down.
      - rewrite Htail, fmap_add_seqZ. unfold change. f_equal. lia.
      - rewrite Htail. apply Forall_seqZ. unfold change. intros o Ho. lia. }
    destruct (IH (move_down (order target - 1) <$> pre)
                ((move_down (order target - 1) <$> tail)
                 ++ [mkRow i (order target - 1) ∅]))
      as (pre' & tail' & Heq & Hlen & Horders).
    + rewrite length_app, length_fmap. cbn [length].
      unfold orders in *. rewrite fmap_app. unfold change in Hdown.
      rewrite Hdown. rewrite Nat2Z.inj_add. simpl.
      rewrite (seqZ_app _ (Z.of_nat (length tail)) 1) by lia.
      f_equal; [f_equal; lia |].
      rewrite seqZ_cons by lia. rewrite seqZ_nil by lia. simpl. f_equal. lia.
    + rewrite length_app, length_fmap. cbn [length]. lia.
    + exists pre', tail'. split_and!; [exact Heq | by rewrite Hlen, length_fmap |].
      rewrite Horders, length_app, length_fmap. cbn [length].
      f_equal; lia.
Qed.

(** C1, amended: [insertBefore] returns the target's order less
    0.00000000000000000001, whether or not the target is the first row;
    every row between the whole number below that order and that order
    moves down by the same step and every other row stays as it is.  So
    rows placed one after the other before the same target end, oldest
    first, at the target's order less n steps up to less one step, as long
    as these stay above the whole number below: the newest always directly
    under the target, the gap never halved. *)
Theorem insertBefore_one_step_below (target : Row) (rows : list Row)
    (ids : list Z) :
  (insertBefore target rows).1 = order target - change
  ∧ length (insertBefore target rows).2 = length rows
  ∧ (∀ (i : nat) (r : Row), rows !! i = Some r →
       ∃ r', (insertBefore target rows).2 !! i = Some r'
             ∧ row_id r' = row_id r ∧ cells r' = cells r
             ∧ order r'
               = if (floor_order (order target - change) <? order r)
                    && (order r <=? order target - change)
                 then order r - change else order r)
  ∧ (floor_order (order target - change)
     < order target - Z.of_nat (length ids) * change →
     orders (drop (length rows) (insert_many target ids rows))
     = seqZ (order target - Z.of_nat (length ids) * change)
         (Z.of_nat (length ids))).
Proof.
  split_and!.
  - reflexivity.
  - cbn [insertBefore snd]. apply length_fmap.
  - intros i r Hr. cbn [insertBefore snd]. rewrite list_lookup_fmap, Hr.
    eexists. split; [reflexivity |]. unfold move_down.
    by destruct ((floor_order (order target - change) <? order r)
                 && (order r <=? order target - change)).
  - unfold change at 2 3. intros Hroom.
    destruct (insert_many_tail target ids rows [])
      as (pre' & tail' & Heq & Hlen & Horders).
    + cbn [length]. by rewrite seqZ_nil.
    + cbn [length]. lia.
    + rewrite app_nil_r in Heq. rewrite Heq, <- Hlen, drop_app_length.
      rewrite Horders. cbn [length]. f_equal; lia.
Qed.

(** Three rows placed before row 2 of the test's table. *)
Lemma insertBefore_one_step_below_witness :
  orders (drop 2 (insert_many (mkRow 2 200000000000000000000 ∅) [3; 4; 6]
                    [mkRow 1 100000000000000000000 ∅;
                     mkRow 2 200000000000000000000 ∅]))
  = [199999999999999999997; 199999999999999999998; 199999999999999999999].
Proof.
  destruct (insertBefore_one_step_below (mkRow 2 200000000000000000000 ∅)
              [mkRow 1 100000000000000000000 ∅;
               mkRow 2 200000000000000000000 ∅] [3; 4; 6])
    as (_ & _ & _ & H).
  apply H. reflexivity.
Defined.

(** ** Creating a row with a price *)

Lemma prepare_float_59999_99 (parse : string → option Decimal)
    (price : NumberField) :
  number_type price = NUMBER_TYPE_DECIMAL →
  prepare_value_for_db parse price (PyFloat TestRowsHandler.float_59999_99)
  = Ok (PyDecimal (DFinite 599999899999999979627318680286407470703125 (-37))).
Proof.
  intros Ht. unfold prepare_value_for_db. rewrite Ht.
  change (String.eqb NUMBER_TYPE_DECIMAL NUMBER_TYPE_DECIMAL) with true.
  change (truthy (PyFloat TestRowsHandler.float_59999_99)) with true.
  cbn [andb to_Decimal]. rewrite !bind_Ok.
  change (Decimal_of_float TestRowsHandler.float_59999_99)
    with (DFinite 599999899999999979627318680286407470703125 (-37)).
  cbn [truthy lt_zero]. rewrite bind_Ok.
  change (599999899999999979627318680286407470703125 <? 0) with false.
  by destruct (nonzero _ && negb (number_negative price)).
Qed.

Lemma prepare_float_minus_10_22 (parse : string → option Decimal)
    (price : NumberField) :
  number_type price = NUMBER_TYPE_DECIMAL → number_negative price = false →
  prepare_value_for_db parse price (PyFloat TestRowsHandler.float_minus_10_22)
  = Raise (ValidationError
             ("The value for field " +:+ pretty (field_id (number_base price))
              +:+ " cannot be negative.")).
Proof.
  intros Ht Hn. unfold prepare_value_for_db. rewrite Ht, Hn.
  change (String.eqb NUMBER_TYPE_DECIMAL NUMBER_TYPE_DECIMAL) with true.
  change (truthy (PyFloat TestRowsHandler.float_minus_10_22)) with true.
  cbn [andb to_Decimal]. rewrite !bind_Ok.
  change (Decimal_of_float TestRowsHandler.float_minus_10_22)
    with (DFinite (-102200000000000006394884621840901672840118408203125) (-49)).
  reflexivity.
Qed.

Lemma numeric_column_59999_99 :
  numeric_column (MAX_DIGITS + 2) 2
    (DFinite 599999899999999979627318680286407470703125 (-37))
  = Ok (DFinite 5999999 (-2)).
Proof. vm_compute. reflexivity. Qed.

Section CarTable.
Variable parse : string → option Decimal.
Variables (name_field : Field) (text_default : string).
Variables speed price : NumberField.
Hypothesis price_decimal : number_type price = NUMBER_TYPE_DECIMAL.
Hypothesis price_places : number_decimal_places price = 2.
Hypothesis name_not_price :
  field_id name_field ≠ field_id (number_base price).
Hypothesis speed_not_price :
  field_id (number_base speed) ≠ field_id (number_base price).

Lemma prepare_values_price (v : pyval) :
  prepare_values parse
    [IsTextField name_field text_default; IsNumberField speed;
     IsNumberField price]
    {[ field_id (number_base price) := v ]}
  = v' ← prepare_value_for_db parse price v;
    Ok (<[db_column (number_base price) := v']> ∅).
Proof.
  cbn [prepare_values base].
  rewrite !lookup_singleton_ne by done. rewrite lookup_singleton_eq.
  cbn [field_prepare_value_for_db].
  by destruct (prepare_value_for_db parse price v).
Qed.

Lemma store_values_price (d : Decimal) :
  store_values
    [IsTextField name_field text_default; IsNumberField speed;
     IsNumberField price]
    {[ db_column (number_base price) := PyDecimal d ]}
  = d' ← numeric_column (MAX_DIGITS + 2) 2 d;
    Ok (<[db_column (number_base price) := PyDecimal d']>
          {[ db_column (number_base price) := PyDecimal d ]}).
Proof.
  assert (Hname : db_column (number_base price) ≠ db_column name_field)
    by (intros H; apply db_column_inj in H; by apply name_not_price).
  assert (Hspeed : db_column (number_base price)
                   ≠ db_column (number_base speed))
    by (intros H; apply db_column_inj in H; by apply speed_not_price).
  cbn [store_values]. rewrite bind_Ok.
  unfold specific_db_column. cbn [base].
  rewrite lookup_singleton_eq. cbn [column_value].
  rewrite price_decimal, price_places.
  change (String.eqb NUMBER_TYPE_DECIMAL NUMBER_TYPE_DECIMAL) with true.
  cbn match.
  destruct (numeric_column (MAX_DIGITS + 2) 2 d) as [d' | e]; [| reflexivity].
  rewrite !bind_Ok.
  rewrite lookup_insert_ne by done. rewrite lookup_singleton_ne by done.
  rewrite bind_Ok.
  rewrite lookup_insert_ne by done. rewrite lookup_singleton_ne by done.
  reflexivity.
Qed.

Lemma create_row_price_stored (v : pyval) (d d' : Decimal)
    (before : option Row) (new_id : Z) (rows : list Row) :
  prepare_value_for_db parse price v = Ok (PyDecimal d) →
  numeric_column (MAX_DIGITS + 2) 2 d = Ok d' →
  ∃ (r stored : Row) (rows' : list Row),
    create_row parse
    [IsTextField name_field text_default; IsNumberField speed;
     IsNumberField price]
    {[ field_id (number_base price) := v ]}
      before new_id rows = (Ok r, rows' ++ [stored])
    ∧ length rows' = length rows
    ∧ row_id r = new_id ∧ row_id stored = new_id ∧ order stored = order r
    ∧ cells r !! db_column (number_base price) = Some (PyDecimal d)
    ∧ cells stored !! db_column (number_base price) = Some (PyDecimal d').
Proof.
  intros Hv Hq. unfold create_row.
  rewrite prepare_values_price, Hv, bind_Ok.
  change (<[db_column (number_base price) := PyDecimal d]> (∅ : row))
    with ({[ db_column (number_base price) := PyDecimal d ]} : row).
  rewrite store_values_price, Hq, bind_Ok.
  destruct before as [target |].
  - eexists _, _, _. cbn [insertBefore].
    split_and!; [reflexivity | | reflexivity | reflexivity | reflexivity | |].
    + apply length_fmap.
    + apply lookup_singleton_eq.
    + apply lookup_insert_eq.
  - eexists _, _, _.
    split_and!; [reflexivity | reflexivity | reflexivity | reflexivity
                 | reflexivity | |].
    + apply lookup_singleton_eq.
    + apply lookup_insert_eq.
Qed.

Lemma create_row_price_refused (v : pyval) (e : exn)
    (before : option Row) (new_id : Z) (rows : list Row) :
  prepare_value_for_db parse price v = Raise e →
  create_row parse
    [IsTextField name_field text_default; IsNumberField speed;
     IsNumberField price]
    {[ field_id (number_base price) := v ]}
    before new_id rows = (Raise e, rows).
Proof.
  intros Hv. unfold create_row.
  by rewrite prepare_values_price, Hv, !bind_Raise.
Qed.

End CarTable.

(** C7, as it is worded, fails: the coercion during validation does not
    remove the drift of the float.  For the price field of the tests
    [prepare_value_for_db] turns the float 59999.99 into the [Decimal]
    59999.9899999999979627318680286407470703125, the exact expansion of
    the double: it equals the float and does not equal the decimal
    59999.99. *)
Lemma validation_keeps_float_drift :
  prepare_value_for_db (λ _, None) TestRowsHandler.price_field
    (PyFloat TestRowsHandler.float_59999_99)
  = Ok (PyDecimal (DFinite 599999899999999979627318680286407470703125 (-37)))
  ∧ py_eq (PyDecimal (DFinite 599999899999999979627318680286407470703125 (-37)))
      (PyFloat TestRowsHandler.float_59999_99) = true
  ∧ py_eq (PyDecimal (DFinite 599999899999999979627318680286407470703125 (-37)))
      (PyDecimal (DFinite 5999999 (-2))) = false.
Proof. vm_compute. split_and!; reflexivity. Qed.

(** C7, amended: in the table of a text field, a number field and a price
    field that is DECIMAL with 2 decimal places and allows no negatives,
    creating a row with the price -10.22 raises the [ValidationError] and
    leaves the table as it was.  Creating one with the price 59999.99,
    passed as a float, does persist exactly 59999.99, but not through the
    coercion of the validation: that returns the exact expansion of the
    double, 59999.98999999999796..., which the returned row still holds;
    it is nearer to 59999.99 than half a unit of the second decimal place,
    and the column of 2 decimal places rounds it to 59999.99 in the row
    that is written.  A price passed as the string ["59999.99"] is
    59999.99 from the validation on. *)
Theorem create_row_price_exact (parse : string → option Decimal)
    (name_field : Field) (text_default : string) (speed price : NumberField)
    (before : option Row) (new_id : Z) (rows : list Row) :
  number_type price = NUMBER_TYPE_DECIMAL →
  number_decimal_places price = 2 →
  number_negative price = false →
  field_id name_field ≠ field_id (number_base price) →
  field_id (number_base speed) ≠ field_id (number_base price) →
  let create (v : pyval) :=
    create_row parse
      [IsTextField name_field text_default; IsNumberField speed;
       IsNumberField price]
      {[ field_id (number_base price) := v ]} before new_id rows in
  let written (v validated : pyval) :=
    ∃ (r stored : Row) (rows' : list Row),
      create v = (Ok r, rows' ++ [stored])
      ∧ length rows' = length rows
      ∧ row_id r = new_id ∧ row_id stored = new_id ∧ order stored = order r
      ∧ cells r !! db_column (number_base price) = Some validated
      ∧ cells stored !! db_column (number_base price)
        = Some (PyDecimal (DFinite 5999999 (-2))) in
  let expansion := 599999899999999979627318680286407470703125 in
  create (PyFloat TestRowsHandler.float_minus_10_22)
  = (Raise (ValidationError
              ("The value for field " +:+ pretty (field_id (number_base price))
               +:+ " cannot be negative.")), rows)
  ∧ prepare_value_for_db parse price (PyFloat TestRowsHandler.float_59999_99)
    = Ok (PyDecimal (DFinite expansion (-37)))
  ∧ expansion ≠ 5999999 * 10 ^ 35
  ∧ 2 * Z.abs (expansion - 5999999 * 10 ^ 35) < 10 ^ 35
  ∧ written (PyFloat TestRowsHandler.float_59999_99)
      (PyDecimal (DFinite expansion (-37)))
  ∧ (parse "59999.99" = Some (DFinite 5999999 (-2)) →
     prepare_value_for_db parse price (PyStr "59999.99")
     = Ok (PyDecimal (DFinite 5999999 (-2)))
     ∧ written (PyStr "59999.99") (PyDecimal (DFinite 5999999 (-2)))).
Proof.
  intros Ht Hp Hn Hname Hspeed create written expansion.
  subst create written expansion. split_and!.
  - apply create_row_price_refused; [done | done |].
    by apply prepare_float_minus_10_22.
  - by apply prepare_float_59999_99.
  - by vm_compute.
  - by vm_compute.
  - eapply create_row_price_stored;
      first [done | by apply prepare_float_59999_99
             | apply numeric_column_59999_99].
  - intros Hparse.
    assert (Hprep : prepare_value_for_db parse price (PyStr "59999.99")
                    = Ok (PyDecimal (DFinite 5999999 (-2)))).
    { unfold prepare_value_for_db. rewrite Ht, Hn.
      cbn [truthy to_Decimal]. rewrite Hparse. reflexivity. }
    split; [exact Hprep |].
    eapply create_row_price_stored; try done; reflexivity.
Qed.

(** The table "Car" of the tests, empty, with a parser that reads the one
    string. *)
Lemma create_row_price_exact_witness :
  create_row (λ s, if String.eqb s "59999.99"
                   then Some (DFinite 5999999 (-2)) else None)
    TestRowsHandler.car {[ 3 := PyFloat TestRowsHandler.float_minus_10_22 ]}
    None 1 []
  = (Raise (ValidationError "The value for field 3 cannot be negative."), []).
Proof.
  apply (create_row_price_exact
           (λ s, if String.eqb s "59999.99"
                 then Some (DFinite 5999999 (-2)) else None)
           TestRowsHandler.name_field "Test" TestRowsHandler.speed_field
           TestRowsHandler.price_field None 1 []);
    [reflexivity | reflexivity | reflexivity | discriminate | discriminate].
Defined.

(** * Further properties *)

(** ** Registry: lookups, names and removal *)

Lemma registry_of_register (self : Registry) (i : Instance) :
  registry (register self (AnInstance i)).2
  = match registry self !! type i with
    | Some _ => registry self
    | None => <[type i := i]> (registry self)
    end
  ∧ name (register self (AnInstance i)).2 = name self.
Proof. unfold register. by destruct (registry self !! type i). Qed.

(** X1: registering an instance, whether it succeeds or is refused, leaves
    the lookup of every other type name as it was, error message
    included. *)
Theorem register_frame (self : Registry) (i : Instance) (tag : string) :
  tag ≠ type i →
  get (register self (AnInstance i)).2 tag = get self tag.
Proof.
  intros Hne. destruct (registry_of_register self i) as [Hreg Hname].
  unfold get. rewrite Hreg, Hname.
  destruct (registry self !! type i); [done |].
  by rewrite lookup_insert_ne.
Qed.

Lemma register_frame_witness :
  get (register (mkRegistry "field" ∅)
         (AnInstance (mkInstance "number" None))).2 "text"
  = get (mkRegistry "field" ∅) "text".
Proof. by apply register_frame. Defined.

(** X2: [get_types] lists exactly the names [get] finds, each once. *)
Theorem get_types_are_the_registered (self : Registry) (tag : string) :
  (tag ∈ get_types self ↔ ∃ instance, get self tag = Ok instance)
  ∧ NoDup (get_types self).
Proof.
  unfold get_types, get. split; [| apply NoDup_fst_map_to_list].
  rewrite list_elem_of_fmap. split.
  - intros ([k j] & -> & Hin). apply elem_of_map_to_list in Hin.
    simpl. rewrite Hin. eauto.
  - intros [instance H]. destruct (registry self !! tag) as [j |] eqn:Hj;
      [| discriminate].
    exists (tag, j). split; [done |]. by apply elem_of_map_to_list.
Qed.

(** X3: in a registry where every instance sits under its own type,
    [register] and [unregister] keep it so, whatever they are given; in
    such a registry what [get] returns for a name has that name as its
    type. *)
Theorem registered_under_own_type (is_value : string → bool)
    (self : Registry) (value : pyobj) :
  (∀ k j, registry self !! k = Some j → type j = k) →
  (∀ k j, registry (register self value).2 !! k = Some j → type j = k)
  ∧ (∀ k j, registry (unregister is_value self value).2 !! k = Some j →
            type j = k)
  ∧ (∀ tag instance, get self tag = Ok instance → type instance = tag).
Proof.
  intros Hkeyed. split_and!.
  - intros k j. destruct value as [i | v]; [| apply Hkeyed].
    destruct (registry_of_register self i) as [-> _].
    destruct (registry self !! type i); [apply Hkeyed |].
    destruct (decide (k = type i)) as [-> | Hne].
    + rewrite lookup_insert_eq. by intros [= <-].
    + rewrite lookup_insert_ne by done. apply Hkeyed.
  - intros k j. unfold unregister.
    destruct (match value with
              | AnInstance _ =>
                  foldl (unregister_step is_value) value
                    (map_to_list (registry self))
              | NotAnInstance _ => value
              end) as [i | [ | | | | s | ]]; try apply Hkeyed.
    destruct (registry self !! s); [| apply Hkeyed].
    cbn [snd registry]. destruct (decide (k = s)) as [-> | Hne].
    + by rewrite lookup_delete_eq.
    + rewrite lookup_delete_ne by done. apply Hkeyed.
  - intros tag instance. unfold get.
    destruct (registry self !! tag) as [j |] eqn:Hj; [| discriminate].
    intros [= <-]. by apply Hkeyed.
Qed.

Lemma registered_under_own_type_witness :
  type (mkInstance "number" (Some "NumberField")) = "number".
Proof.
  destruct (registered_under_own_type (λ _, false)
              (mkRegistry "field"
                 {[ "number" := mkInstance "number" (Some "NumberField") ]})
              (NotAnInstance PyNone)) as (_ & _ & H).
  - intros k j Hk. cbn [registry] in Hk.
    apply lookup_singleton_Some in Hk as [<- <-]. done.
  - by apply (H "number").
Defined.

(** X4: [unregister] of a type name that is registered removes it: the
    call returns, [get] of the name raises the does-not-exist exception
    afterwards and every other name is found as before.  Of a name that is
    not registered it raises [KeyError] and changes nothing. *)
Theorem unregister_by_name (is_value : string → bool) (self : Registry)
    (tag other : string) :
  (is_Some (registry self !! tag) →
   (unregister is_value self (NotAnInstance (PyStr tag))).1 = Returns ()
   ∧ (∃ msg, get (unregister is_value self (NotAnInstance (PyStr tag))).2 tag
             = Raise (InstanceTypeDoesNotExist msg))
   ∧ (other ≠ tag →
      get (unregister is_value self (NotAnInstance (PyStr tag))).2 other
      = get self other))
  ∧ (registry self !! tag = None →
     unregister is_value self (NotAnInstance (PyStr tag)) = (Raises (KeyError tag), self)).
Proof.
  unfold unregister. split.
  - intros [j ->]. unfold get. cbn [fst snd registry name]. split_and!.
    + done.
    + rewrite lookup_delete_eq. eauto.
    + intros Hne. by rewrite lookup_delete_ne.
  - by intros ->.
Qed.

Lemma unregister_by_name_witness :
  (unregister (λ _, false) (mkRegistry "field" {[ "number" := mkInstance "number" None ]})
     (NotAnInstance (PyStr "number"))).1 = Returns ()
  ∧ unregister (λ _, false) (mkRegistry "field" ∅) (NotAnInstance (PyStr "number"))
    = (Raises (KeyError "number"), mkRegistry "field" ∅).
Proof.
  split.
  - apply (unregister_by_name (λ _, false)
             (mkRegistry "field" {[ "number" := mkInstance "number" None ]})
             "number" "text").
    by eexists.
  - by apply (unregister_by_name (λ _, false) (mkRegistry "field" ∅) "number" "text").
Defined.

(** X5: registering an instance whose type is free and then unregistering
    that type gives back the registry one started with. *)
Theorem register_unregister (is_value : string → bool) (self : Registry)
    (i : Instance) :
  registry self !! type i = None →
  (register self (AnInstance i)).1 = Ok ()
  ∧ unregister is_value (register self (AnInstance i)).2
      (NotAnInstance (PyStr (type i)))
    = (Returns (), self).
Proof.
  intros Hfree. unfold register. rewrite Hfree. split; [done |].
  unfold unregister. cbn [snd registry name]. rewrite lookup_insert_eq.
  rewrite delete_insert_id by done. by destruct self.
Qed.

Lemma register_unregister_witness :
  unregister (λ _, false) (register (mkRegistry "field" ∅)
                (AnInstance (mkInstance "number" None))).2
    (NotAnInstance (PyStr "number"))
  = (Returns (), mkRegistry "field" ∅).
Proof.
  by apply (register_unregister (λ _, false) (mkRegistry "field" ∅)
              (mkInstance "number" None)).
Defined.

Lemma unregister_loop_no_match (is_value : string → bool) (v : Instance)
    (items : list (string * Instance)) :
  (∀ item, item ∈ items → is_value item.1 = false) →
  foldl (unregister_step is_value) (AnInstance v) items = AnInstance v.
Proof.
  induction items as [| item items IH]; [done |]. intros Hno. cbn [foldl].
  unfold unregister_step at 2. rewrite (Hno item) by by left.
  apply IH. intros x Hx. apply Hno. by right.
Qed.

Lemma unregister_loop_name (is_value : string → bool) (s : string)
    (items : list (string * Instance)) :
  foldl (unregister_step is_value) (NotAnInstance (PyStr s)) items
  = NotAnInstance (PyStr s).
Proof. induction items as [| item items IH]; [done | exact IH]. Qed.

Lemma unregister_loop_match (is_value : string → bool) (v j : Instance)
    (k : string) (items : list (string * Instance)) :
  (k, j) ∈ items →
  is_value k = true →
  (∀ item, item ∈ items → is_value item.1 = true → item.1 = k) →
  foldl (unregister_step is_value) (AnInstance v) items
  = NotAnInstance (PyStr k).
Proof.
  intros Hin Hk.
  induction items as [| item items IH]; intros Honly.
  - by apply elem_of_nil in Hin.
  - cbn [foldl]. unfold unregister_step at 2.
    destruct (is_value item.1) eqn:Hitem.
    + rewrite (Honly item) by (done || by left). apply unregister_loop_name.
    + apply IH.
      * apply elem_of_cons in Hin as [<- | Hin]; [| exact Hin].
        simpl in Hitem. congruence.
      * intros x Hx. apply Honly. by right.
Qed.

(** X6: handed an instance, [unregister] goes by the identity of the
    object and not by its attributes.  When exactly one entry holds that
    very object, the entry is removed.  When no entry holds it, also when
    a registered instance has the same attributes, the call raises
    [ValueError] and changes nothing, as it does for a value that is
    neither an instance nor a string. *)
Theorem unregister_by_instance (is_value : string → bool) (self : Registry)
    (i : Instance) (k : string) (v : pyval) :
  (registry self !! k = Some i →
   is_value k = true →
   (∀ k', is_Some (registry self !! k') → is_value k' = true → k' = k) →
   unregister is_value self (AnInstance i)
   = (Returns (), mkRegistry (name self) (delete k (registry self))))
  ∧ ((∀ k', is_Some (registry self !! k') → is_value k' = false) →
     unregister is_value self (AnInstance i)
     = (Raises (Other (ValueError ("The value must either be an "
                                   +:+ name self
                                   +:+ " instance or type name"))), self))
  ∧ ((∀ s, v ≠ PyStr s) →
     unregister is_value self (NotAnInstance v)
     = (Raises (Other (ValueError ("The value must either be an "
                                   +:+ name self
                                   +:+ " instance or type name"))), self)).
Proof.
  split_and!.
  - intros Hi Hk Honly. unfold unregister.
    rewrite (unregister_loop_match is_value i i k).
    + by rewrite Hi.
    + by apply elem_of_map_to_list.
    + exact Hk.
    + intros [k' j] Hin Hj. simpl in *.
      apply elem_of_map_to_list in Hin. apply Honly; [by eexists | done].
  - intros Hno. unfold unregister. rewrite unregister_loop_no_match; [done |].
    intros [k' j] Hin. simpl.
    apply elem_of_map_to_list in Hin. apply Hno. by eexists.
  - intros Hv. unfold unregister. destruct v; try done. by destruct (Hv s).
Qed.

(** The registered object itself, and an equal one that was never
    registered. *)
Lemma unregister_by_instance_witness :
  unregister (λ k, String.eqb k "number")
    (mkRegistry "field" {[ "number" := mkInstance "number" None ]})
    (AnInstance (mkInstance "number" None))
  = (Returns (),
     mkRegistry "field" (delete "number" {[ "number" := mkInstance "number" None ]}))
  ∧ (unregister (λ _, false)
       (mkRegistry "field" {[ "number" := mkInstance "number" None ]})
       (AnInstance (mkInstance "number" None))).2
    = mkRegistry "field" {[ "number" := mkInstance "number" None ]}
  ∧ (unregister (λ _, false) (mkRegistry "field" ∅) (NotAnInstance (PyInt 3))).2
    = mkRegistry "field" ∅.
Proof.
  split_and!.
  - destruct (unregister_by_instance (λ k, String.eqb k "number")
                (mkRegistry "field" {[ "number" := mkInstance "number" None ]})
                (mkInstance "number" None) "number" PyNone) as (H & _ & _).
    apply H; [reflexivity | reflexivity |].
    intros k' _ Hk'. by apply String.eqb_eq in Hk'.
  - destruct (unregister_by_instance (λ _, false)
                (mkRegistry "field" {[ "number" := mkInstance "number" None ]})
                (mkInstance "number" None) "number" PyNone) as (_ & H & _).
    rewrite H; [done | done].
  - destruct (unregister_by_instance (λ _, false) (mkRegistry "field" ∅)
                (mkInstance "number" None) "number" (PyInt 3)) as (_ & _ & H).
    rewrite H; [done |]. intros s. discriminate.
Defined.

(** X7: a registry can only be made with a name that is set and not
    empty; a new registry holds no type, so every [get] raises the
    does-not-exist exception. *)
Theorem new_registry_is_empty (registry_name : option string) :
  ((∃ msg, Registry_init registry_name = Raises (ImproperlyConfigured msg))
   ↔ registry_name = None ∨ registry_name = Some "")
  ∧ (∀ self, Registry_init registry_name = Returns self →
       registry_name = Some (name self) ∧ get_types self = []
       ∧ ∀ tag, ∃ msg, get self tag = Raise (InstanceTypeDoesNotExist msg)).
Proof.
  unfold Registry_init. destruct registry_name as [n |].
  - destruct (String.eqb_spec n "") as [-> | Hn]; split.
    + split; [by right | eauto].
    + discriminate.
    + split; [by intros [? ?] | by intros [? | [= ?]]].
    + intros self [= <-]. split_and!; [done | done |].
      intros tag. unfold get. cbn [registry]. rewrite lookup_empty. eauto.
  - split; [split; [by left | eauto] | discriminate].
Qed.

(** ** DateField *)

Lemma DATE_FORMAT_lookup (key : string) :
  (∃ formats, dict_get DATE_FORMAT key = Returns formats
              ∧ (key = "EU" ∨ key = "US" ∨ key = "ISO")
              ∧ (∃ f, dict_get formats "format" = Returns f)
              ∧ (∃ f, dict_get formats "sql" = Returns f))
  ∨ (dict_get DATE_FORMAT key = Raises (KeyError key)
     ∧ key ≠ "EU" ∧ key ≠ "US" ∧ key ≠ "ISO").
Proof.
  unfold DATE_FORMAT. cbn [dict_get].
  destruct (String.eqb_spec "EU" key) as [<- | ?];
    [left; eexists; split_and!; [done | tauto | by eexists | by eexists] |].
  destruct (String.eqb_spec "US" key) as [<- | ?];
    [left; eexists; split_and!; [done | tauto | by eexists | by eexists] |].
  destruct (String.eqb_spec "ISO" key) as [<- | ?];
    [left; eexists; split_and!; [done | tauto | by eexists | by eexists] |].
  right. split_and!; congruence.
Qed.

Lemma DATE_TIME_FORMAT_lookup (key : string) :
  (∃ formats, dict_get DATE_TIME_FORMAT key = Returns formats
              ∧ (key = "24" ∨ key = "12")
              ∧ (∃ f, dict_get formats "format" = Returns f)
              ∧ (∃ f, dict_get formats "sql" = Returns f))
  ∨ (dict_get DATE_TIME_FORMAT key = Raises (KeyError key)
     ∧ key ≠ "24" ∧ key ≠ "12").
Proof.
  unfold DATE_TIME_FORMAT. cbn [dict_get].
  destruct (String.eqb_spec "24" key) as [<- | ?];
    [left; eexists; split_and!; [done | tauto | by eexists | by eexists] |].
  destruct (String.eqb_spec "12" key) as [<- | ?];
    [left; eexists; split_and!; [done | tauto | by eexists | by eexists] |].
  right. split_and!; congruence.
Qed.

Lemma outcome_bind_Returns {A B : Type} (a : A) (k : A → outcome B) :
  (Returns a ≫= k) = k a.
Proof. reflexivity. Qed.

Lemma outcome_bind_Raises {A B : Type} (e : exception) (k : A → outcome B) :
  (Raises e ≫= k) = Raises e.
Proof. reflexivity. Qed.

Ltac resolve_formats :=
  repeat match goal with
         | H : dict_get _ _ = _ |- _ => rewrite H
         | |- _ => rewrite outcome_bind_Returns
         | |- _ => rewrite outcome_bind_Raises
         end.

(** X8: the Python and the SQL format of a date field are both returned
    when [date_format] is one of EU, US, ISO and [date_time_format] one of
    24, 12; otherwise both raise [KeyError], for the date format first.
    The time format is looked up even for a field that includes no time,
    so a wrong [date_time_format] makes a date-only field fail as well. *)
Theorem date_formats_or_KeyError (self : DateField) :
  let valid_date :=
    date_format self = "EU" ∨ date_format self = "US"
    ∨ date_format self = "ISO" in
  let valid_time :=
    date_time_format self = "24" ∨ date_time_format self = "12" in
  (valid_date ∧ valid_time →
   (∃ s, get_python_format self = Returns s)
   ∧ (∃ s, get_psql_format self = Returns s))
  ∧ (¬ valid_date →
     get_python_format self = Raises (KeyError (date_format self))
     ∧ get_psql_format self = Raises (KeyError (date_format self)))
  ∧ (valid_date ∧ ¬ valid_time →
     get_python_format self = Raises (KeyError (date_time_format self))
     ∧ get_psql_format self = Raises (KeyError (date_time_format self))).
Proof.
  intros valid_date valid_time. subst valid_date valid_time.
  unfold get_python_format, get_psql_format, _get_format.
  destruct (DATE_FORMAT_lookup (date_format self))
    as [(fd & Hfd & Hd & [pd Hpd] & [sd Hsd]) | (Hfd & Hd1 & Hd2 & Hd3)];
    destruct (DATE_TIME_FORMAT_lookup (date_time_format self))
      as [(ft & Hft & Ht & [pt Hpt] & [st Hst]) | (Hft & Ht1 & Ht2)];
    resolve_formats; split_and!; try tauto; try (intros _; split; done).
  intros _. destruct (date_include_time self); split; by eexists.
Qed.

Lemma date_formats_or_KeyError_witness :
  (∃ s, get_python_format (mkDateField (mkField 1 1 0 "Day" false) "ISO" true "24")
        = Returns s)
  ∧ get_psql_format (mkDateField (mkField 1 1 0 "Day" false) "EU" false "25")
    = Raises (KeyError "25").
Proof.
  split.
  - apply (date_formats_or_KeyError
             (mkDateField (mkField 1 1 0 "Day" false) "ISO" true "24")).
    split; [by right; right | by left].
  - apply (date_formats_or_KeyError
             (mkDateField (mkField 1 1 0 "Day" false) "EU" false "25")).
    split; [by left | by intros [|]].
Defined.

(** X9: including the time only appends to the format: the format of a
    field with time is the format the same field has without time,
    a space, and a time part; and the column type and the conversion
    function are the timestamp ones exactly for those fields. *)
Theorem date_time_appended (self : DateField) (format_type : string)
    (s : string) :
  _get_format self format_type = Returns s →
  (date_include_time self = true →
   ∃ d t, s = d +:+ " " +:+ t
          ∧ _get_format (mkDateField (date_base self) (date_format self) false
                           (date_time_format self)) format_type = Returns d)
  ∧ (date_include_time self = true
     ↔ get_psql_type self = "timestamp")
  ∧ (date_include_time self = true
     ↔ get_psql_type_convert_function self = "TO_TIMESTAMP").
Proof.
  unfold _get_format, get_psql_type, get_psql_type_convert_function.
  cbn [date_format date_time_format date_include_time].
  destruct (dict_get DATE_FORMAT (date_format self)) as [fd | e]; [| discriminate].
  rewrite !outcome_bind_Returns.
  destruct (dict_get fd format_type) as [d | e]; [| discriminate].
  rewrite !outcome_bind_Returns.
  destruct (dict_get DATE_TIME_FORMAT (date_time_format self)) as [ft | e];
    [| discriminate].
  rewrite !outcome_bind_Returns.
  destruct (dict_get ft format_type) as [t | e]; [| discriminate].
  rewrite !outcome_bind_Returns.
  destruct (date_include_time self); intros [= <-]; split_and!; try done.
  intros _. by exists d, t.
Qed.

Lemma date_time_appended_witness :
  ∃ d t, "%Y-%m-%d %H:%M" = d +:+ " " +:+ t
         ∧ _get_format (mkDateField (mkField 1 1 0 "Day" false) "ISO" false "24")
             "format" = Returns d.
Proof.
  destruct (date_time_appended
              (mkDateField (mkField 1 1 0 "Day" false) "ISO" true "24")
              "format" "%Y-%m-%d %H:%M" eq_refl) as (H & _).
  exact (H eq_refl).
Defined.

(** X10: the choices offered for the two settings are EU, US, ISO and
    24, 12, in this order, so the defaults are EU and 24; every pair of
    offered choices is one both formats exist for. *)
Theorem date_choices_have_formats (self : DateField)
    (date_choices time_choices : list (string * string)) :
  DATE_FORMAT_CHOICES = Returns date_choices →
  DATE_TIME_FORMAT_CHOICES = Returns time_choices →
  date_choices.*1 = ["EU"; "US"; "ISO"]
  ∧ time_choices.*1 = ["24"; "12"]
  ∧ (date_format self ∈ date_choices.*1 →
     date_time_format self ∈ time_choices.*1 →
     (∃ s, get_python_format self = Returns s)
     ∧ (∃ s, get_psql_format self = Returns s)).
Proof.
  intros [= <-] [= <-]. split_and!; [done | done |].
  cbn [fmap list_fmap fst].
  intros Hd Ht.
  assert (date_format self = "EU" ∨ date_format self = "US"
          ∨ date_format self = "ISO") as Hd'.
  { repeat (apply elem_of_cons in Hd as [Hd | Hd]; [tauto |]).
    by apply elem_of_nil in Hd. }
  assert (date_time_format self = "24" ∨ date_time_format self = "12") as Ht'.
  { repeat (apply elem_of_cons in Ht as [Ht | Ht]; [tauto |]).
    by apply elem_of_nil in Ht. }
  clear Hd Ht.
  unfold get_python_format, get_psql_format, _get_format.
  destruct Hd' as [-> | [-> | ->]], Ht' as [-> | ->];
    destruct (date_include_time self); split; by eexists.
Qed.

Lemma date_choices_have_formats_witness :
  ∃ s, get_python_format (mkDateField (mkField 1 1 0 "Day" false) "EU" false "24")
       = Returns s.
Proof.
  destruct (date_choices_have_formats
              (mkDateField (mkField 1 1 0 "Day" false) "EU" false "24")
              [("EU", "European (D/M/Y)"); ("US", "US (M/D/Y)");
               ("ISO", "ISO (Y-M-D)")]
              [("24", "24 hour"); ("12", "12 hour")] eq_refl eq_refl)
    as (_ & _ & H).
  apply H; [apply list_elem_of_here | apply list_elem_of_here].
Defined.

(** ** LinkRowField *)

Lemma aggregate_max_spec (values : list Z) :
  match aggregate_max values with
  | Some m => m ∈ values ∧ ∀ x, x ∈ values → x ≤ m
  | None => values = []
  end.
Proof.
  induction values as [| v values IH]; [done |]. cbn [aggregate_max foldr].
  fold (aggregate_max values). destruct (aggregate_max values) as [m |].
  - destruct IH as [Hm Hle]. split.
    + destruct (Z.max_spec v m) as [[_ ->] | [_ ->]]; [by right | by left].
    + intros x Hx. apply elem_of_cons in Hx as [-> | Hx]; [lia |].
      specialize (Hle x Hx). lia.
  - subst values. split; [by left |].
    intros x Hx. apply elem_of_cons in Hx as [-> | Hx]; [lia |].
    by apply elem_of_nil in Hx.
Qed.

Lemma elem_of_relation_ids (db : link_row_fields) (x : Z) :
  x ∈ relation_ids db
  ↔ ∃ k f, db !! k = Some f ∧ link_row_relation_id f = Some x.
Proof.
  unfold relation_ids. rewrite list_elem_of_omap. split.
  - intros (f & Hf & Hx). apply list_elem_of_fmap in Hf as ([k f'] & -> & Hin).
    apply elem_of_map_to_list in Hin. by exists k, f'.
  - intros (k & f & Hk & Hx). exists f. split; [| done].
    apply list_elem_of_fmap. exists (k, f). split; [done |].
    by apply elem_of_map_to_list.
Qed.

Lemma get_new_relation_id_above (db : link_row_fields) (x : Z) :
  x ∈ relation_ids db → x < get_new_relation_id db.
Proof.
  intros Hx. unfold get_new_relation_id.
  pose proof (aggregate_max_spec (relation_ids db)) as Hmax.
  destruct (aggregate_max (relation_ids db)) as [m |].
  - destruct Hmax as [_ Hle]. specialize (Hle x Hx). unfold or_zero.
    destruct (Z.eqb_spec m 0); lia.
  - rewrite Hmax in Hx. by apply elem_of_nil in Hx.
Qed.

(** X11: saving a link row field that has no relation id yet gives it one
    that is above every relation id stored so far, trashed fields
    included, so no stored field has it; nothing else of the field
    changes. *)
Theorem link_row_save_fresh_relation_id {R : Type}
    (super_save : LinkRowField → link_row_fields → R) (self : LinkRowField)
    (db : link_row_fields) :
  link_row_relation_id self = None →
  ∃ n, link_row_relation_id (link_row_save super_save self db).1 = Some n
       ∧ (∀ k f x, db !! k = Some f → link_row_relation_id f = Some x → x < n)
       ∧ (∀ k f, db !! k = Some f → link_row_relation_id f ≠ Some n)
       ∧ link_row_base (link_row_save super_save self db).1 = link_row_base self
       ∧ link_row_table (link_row_save super_save self db).1 = link_row_table self
       ∧ link_row_related_field (link_row_save super_save self db).1
         = link_row_related_field self.
Proof.
  intros Hnone. unfold link_row_save. rewrite Hnone. cbn [fst].
  exists (get_new_relation_id db).
  assert (Habove : ∀ k f x, db !! k = Some f →
                     link_row_relation_id f = Some x →
                     x < get_new_relation_id db).
  { intros k f x Hk Hx. apply get_new_relation_id_above.
    apply elem_of_relation_ids. eauto. }
  split_and!; try done.
  intros k f Hk Hn. specialize (Habove k f _ Hk Hn). lia.
Qed.

Lemma link_row_save_fresh_relation_id_witness :
  ∃ n, link_row_relation_id
         (link_row_save (λ _ _, ()) (mkLinkRowField (mkField 9 1 0 "Owner" false) 2 None None)
            {[ 4 := mkLinkRowField (mkField 4 1 0 "Cars" false) 2 None (Some 7) ]}).1
       = Some n
       ∧ n ≠ 7.
Proof.
  destruct (link_row_save_fresh_relation_id (λ _ _, ())
              (mkLinkRowField (mkField 9 1 0 "Owner" false) 2 None None)
              {[ 4 := mkLinkRowField (mkField 4 1 0 "Cars" false) 2 None (Some 7) ]}
              eq_refl) as (n & Hn & _ & Hfresh & _).
  exists n. split; [exact Hn |].
  intros ->. by apply (Hfresh 4 _ (lookup_singleton_eq _ _)).
Defined.

(** X13: [through_table_name] raises [ValueError] exactly for a field
    whose relation id is absent or 0; for the others it is the prefix and
    the relation id, so two fields share a through table exactly when they
    share the relation id. *)
Theorem through_table_name_of_relation_id (f g : LinkRowField) :
  ((∃ msg, through_table_name f = Raise (ValueError msg))
   ↔ link_row_relation_id f = None ∨ link_row_relation_id f = Some 0)
  ∧ (∀ n, link_row_relation_id f = Some n → n ≠ 0 →
          through_table_name f = Ok ("database_relation_" +:+ pretty n))
  ∧ (∀ s, through_table_name f = Ok s → through_table_name g = Ok s →
          link_row_relation_id f = link_row_relation_id g).
Proof.
  assert (Hok : ∀ h s, through_table_name h = Ok s →
            ∃ n, link_row_relation_id h = Some n
                 ∧ s = THROUGH_DATABASE_TABLE_PREFIX +:+ pretty n).
  { intros h s. unfold through_table_name.
    destruct (link_row_relation_id h) as [n |]; [| discriminate].
    destruct (n =? 0); [discriminate |]. intros [= <-]. eauto. }
  split_and!.
  - unfold through_table_name. destruct (link_row_relation_id f) as [n |].
    + destruct (Z.eqb_spec n 0) as [-> | Hn]; split.
      * by right.
      * eauto.
      * by intros [? ?].
      * intros [? | [= ?]]; done.
    + split; [by left | eauto].
  - intros n Hn Hne. unfold through_table_name. rewrite Hn.
    by destruct (Z.eqb_spec n 0).
  - intros s Hf Hg.
    destruct (Hok f s Hf) as (n & -> & ->).
    destruct (Hok g _ Hg) as (m & -> & Heq).
    apply (inj (String.app THROUGH_DATABASE_TABLE_PREFIX)) in Heq.
    apply (inj pretty) in Heq. by subst.
Qed.

(** X14: when no stored relation id is negative, a field saved without a
    relation id gets one that is at least 1 and has a through table name
    from then on.  The one case in which the new id is unusable is a
    highest stored id of -1: the new id is 0 then and the name raises. *)
Theorem link_row_save_then_through_table {R : Type}
    (super_save : LinkRowField → link_row_fields → R) (self : LinkRowField)
    (db : link_row_fields) :
  link_row_relation_id self = None →
  ((∀ k f x, db !! k = Some f → link_row_relation_id f = Some x → 0 ≤ x) →
   1 ≤ get_new_relation_id db
   ∧ through_table_name (link_row_save super_save self db).1
     = Ok ("database_relation_" +:+ pretty (get_new_relation_id db)))
  ∧ (aggregate_max (relation_ids db) = Some (-1) →
     link_row_relation_id (link_row_save super_save self db).1 = Some 0
     ∧ ∃ msg, through_table_name (link_row_save super_save self db).1
              = Raise (ValueError msg)).
Proof.
  intros Hnone. unfold link_row_save. rewrite Hnone. cbn [fst]. split.
  - intros Hpos.
    assert (1 ≤ get_new_relation_id db) as Hnew.
    { unfold get_new_relation_id.
      pose proof (aggregate_max_spec (relation_ids db)) as Hmax.
      destruct (aggregate_max (relation_ids db)) as [m |]; [| simpl; lia].
      destruct Hmax as [Hm _].
      apply elem_of_relation_ids in Hm as (k & f & Hk & Hx).
      specialize (Hpos k f m Hk Hx). unfold or_zero.
      destruct (Z.eqb_spec m 0); lia. }
    split; [exact Hnew |].
    unfold through_table_name. cbn [link_row_relation_id].
    destruct (Z.eqb_spec (get_new_relation_id db) 0); [lia | done].
  - intros Hmax. unfold get_new_relation_id. rewrite Hmax.
    split; [done |]. unfold through_table_name. cbn. eauto.
Qed.

Lemma link_row_save_then_through_table_witness :
  through_table_name
    (link_row_save (λ _ _, ()) (mkLinkRowField (mkField 9 1 0 "Owner" false) 2 None None)
       {[ 4 := mkLinkRowField (mkField 4 1 0 "Cars" false) 2 None (Some 7) ]}).1
  = Ok "database_relation_8".
Proof.
  destruct (link_row_save_then_through_table (λ _ _, ())
              (mkLinkRowField (mkField 9 1 0 "Owner" false) 2 None None)
              {[ 4 := mkLinkRowField (mkField 4 1 0 "Cars" false) 2 None (Some 7) ]}
              eq_refl) as [H _].
  destruct H as [_ H]; [| exact H].
  intros k f x Hk Hx. apply lookup_singleton_Some in Hk as [_ <-].
  injection Hx as <-. lia.
Defined.

(** ** NumberFieldType: columns, serializer and conversion *)

(** X15: the serializer field and the model field of a number field are of
    the same kind and, for a DECIMAL field, of the same precision, which
    leaves 50 digits before the point; both allow an empty value; the
    serializer has the lower bound 0 exactly when the field allows no
    negatives.  For a [number_type] that is neither INTEGER nor DECIMAL
    neither of the two exists. *)
Theorem serializer_and_model_field_agree (instance : NumberField) :
  match get_serializer_field instance, get_model_field instance with
  | Some (SerializerIntegerField s), Some (ModelIntegerField m) =>
      number_type instance = NUMBER_TYPE_INTEGER
      ∧ allow_null s = true ∧ required s = false ∧ null m = true
      ∧ (min_value s = Some 0 ↔ number_negative instance = false)
      ∧ (min_value s = None ↔ number_negative instance = true)
  | Some (SerializerDecimalField places digits s),
    Some (ModelDecimalField places' digits' m) =>
      number_type instance = NUMBER_TYPE_DECIMAL
      ∧ places = number_decimal_places instance ∧ places' = places
      ∧ digits' = digits ∧ digits - places = 50
      ∧ allow_null s = true ∧ required s = false ∧ null m = true
      ∧ (min_value s = Some 0 ↔ number_negative instance = false)
      ∧ (min_value s = None ↔ number_negative instance = true)
  | None, None =>
      number_type instance ≠ NUMBER_TYPE_INTEGER
      ∧ number_type instance ≠ NUMBER_TYPE_DECIMAL
  | _, _ => False
  end.
Proof.
  unfold get_serializer_field, get_model_field.
  destruct (String.eqb_spec (number_type instance) NUMBER_TYPE_INTEGER);
    [| destruct (String.eqb_spec (number_type instance) NUMBER_TYPE_DECIMAL)];
    cbn [allow_null required null min_value];
    destruct (number_negative instance); cbn [negb];
    split_and!; try done; unfold MAX_DIGITS; lia.
Qed.

(** X16: for a DECIMAL field that [save] accepts, the column has between 1
    and 5 decimal places and between 51 and 55 digits in all, always 50 of
    them before the point. *)
Theorem saved_decimal_column (self : NumberField) (db : number_fields) :
  (save self db).1 = Ok () →
  number_type self = NUMBER_TYPE_DECIMAL →
  ∃ places digits kwargs,
    get_model_field self = Some (ModelDecimalField places digits kwargs)
    ∧ 1 ≤ places ≤ 5 ∧ 51 ≤ digits ≤ 55 ∧ digits - places = 50.
Proof.
  intros Hsave Ht. apply (save_checks self db) in Hsave as [_ Hplaces].
  unfold get_model_field. rewrite Ht.
  change (String.eqb NUMBER_TYPE_DECIMAL NUMBER_TYPE_INTEGER) with false.
  change (String.eqb NUMBER_TYPE_DECIMAL NUMBER_TYPE_DECIMAL) with true.
  cbn match. eexists _, _, _. split; [reflexivity |]. unfold MAX_DIGITS. lia.
Qed.

Lemma saved_decimal_column_witness :
  ∃ places digits kwargs,
    get_model_field TestRowsHandler.price_field
    = Some (ModelDecimalField places digits kwargs)
    ∧ 1 ≤ places ≤ 5 ∧ 51 ≤ digits ≤ 55 ∧ digits - places = 50.
Proof.
  by apply (saved_decimal_column TestRowsHandler.price_field ∅).
Defined.

(** X17: among the fields [save] accepts, those without a column and
    without a serializer field are exactly the ones whose [number_type] is
    one of the display labels: [save] lets them through, and the field
    type builds nothing for them. *)
Theorem saved_without_column (self : NumberField) (db : number_fields) :
  (save self db).1 = Ok () →
  (get_model_field self = None
   ↔ number_type self = "Integer" ∨ number_type self = "Decimal")
  ∧ (get_serializer_field self = None ↔ get_model_field self = None).
Proof.
  intros Hsave. apply (save_checks self db) in Hsave as [Htype _].
  unfold get_model_field, get_serializer_field.
  destruct Htype as [-> | [-> | [-> | ->]]]; cbn; split; split; intros H;
    try done; try (by left); try (by right); by destruct H.
Qed.

Lemma saved_without_column_witness :
  get_model_field
    (mkNumberField (mkField 1 1 0 "Speed" false) "Integer" 1 false) = None.
Proof.
  destruct (saved_without_column
              (mkNumberField (mkField 1 1 0 "Speed" false) "Integer" 1 false) ∅
              eq_refl) as [H _].
  apply H. by left.
Defined.

Lemma string_length_app (s t : string) :
  String.length (s +:+ t) = (String.length s + String.length t)%nat.
Proof. induction s as [| a s IH]; [done |]. simpl. by rewrite IH. Qed.

Lemma string_app_inj_r (t s1 s2 : string) : s1 +:+ t = s2 +:+ t → s1 = s2.
Proof.
  revert s2. induction s1 as [| a s1 IH]; intros [| b s2] H; simpl in H.
  - done.
  - apply (f_equal String.length) in H.
    rewrite ?string_length_app in H. simpl in H.
    rewrite ?string_length_app in H. lia.
  - apply (f_equal String.length) in H.
    rewrite ?string_length_app in H. simpl in H.
    rewrite ?string_length_app in H. lia.
  - injection H as -> H. f_equal. by apply IH.
Qed.

(** X18: on PostgreSQL the expression that converts a column to a number
    field rounds to the field's decimal places, or to 0 places for a field
    that is not DECIMAL, and clamps at 0 when negatives are not allowed:
    two fields get the same expression exactly when they agree on these
    two settings.  For every other vendor the parent's answer is passed
    on. *)
Theorem alter_column_type_function_settings (super_function : option string)
    (vendor : string) (a b : NumberField) :
  let places (f : NumberField) :=
    if String.eqb (number_type f) NUMBER_TYPE_DECIMAL
    then number_decimal_places f else 0 in
  (get_alter_column_type_function super_function "postgresql" a
   = get_alter_column_type_function super_function "postgresql" b
   ↔ places a = places b ∧ number_negative a = number_negative b)
  ∧ (∃ s, get_alter_column_type_function super_function "postgresql" a = Some s)
  ∧ (vendor ≠ "postgresql" →
     get_alter_column_type_function super_function vendor a = super_function).
Proof.
  intros places. subst places. unfold get_alter_column_type_function.
  change (String.eqb "postgresql" "postgresql") with true. cbn match.
  split_and!; [| by eexists |].
  - generalize (if String.eqb (number_type a) NUMBER_TYPE_DECIMAL
                then number_decimal_places a else 0).
    generalize (if String.eqb (number_type b) NUMBER_TYPE_DECIMAL
                then number_decimal_places b else 0).
    intros pb pa. split.
    + destruct (number_negative a), (number_negative b); cbn [negb];
        intros [= H]; try discriminate; (split; [| done]).
      * repeat first [apply string_app_inj_r in H
                     | apply (inj (String.app _)) in H].
        by apply (inj pretty) in H.
      * repeat first [apply string_app_inj_r in H
                     | apply (inj (String.app _)) in H].
        by apply (inj pretty) in H.
    + by intros [-> ->].
  - intros Hv. by destruct (String.eqb_spec vendor "postgresql").
Qed.

(** ** prepare_value_for_db, after_update and save: further properties *)

Lemma falsy_not_negative (v : pyval) : truthy v = false → lt_zero v ≠ Ok true.
Proof.
  assert (Hz : ∀ z, nonzero z = false → (z <? 0) = false).
  { intros z. unfold nonzero. destruct (Z.eqb_spec z 0) as [-> | ?]; done. }
  destruct v as [ | b | z | [m e | s | ] | s | [c e | s | ]]; simpl;
    try done; intros H; try (by rewrite (Hz _ H)); by subst.
Qed.

(** X19: a value that [prepare_value_for_db] has returned is returned as
    it is when it is prepared again for the same field. *)
Theorem prepare_value_for_db_idempotent (parse : string → option Decimal)
    (instance : NumberField) (value value' : pyval) :
  prepare_value_for_db parse instance value = Ok value' →
  prepare_value_for_db parse instance value' = Ok value'.
Proof.
  unfold prepare_value_for_db.
  destruct (truthy value
            && String.eqb (number_type instance) NUMBER_TYPE_DECIMAL) eqn:Hc.
  - apply andb_true_iff in Hc as [_ Ht]. rewrite Ht.
    destruct (to_Decimal parse value) as [d | e]; [| discriminate].
    rewrite !bind_Ok. intros H.
    assert (value' = PyDecimal d) as ->.
    { destruct (truthy (PyDecimal d) && negb (number_negative instance));
        [| by injection H].
      destruct (lt_zero (PyDecimal d)) as [[] | e]; try discriminate.
      by injection H. }
    destruct (truthy (PyDecimal d)) eqn:Htr; cbn [andb to_Decimal] in *;
      rewrite ?bind_Ok, ?Htr; cbn [andb]; [exact H | done].
  - rewrite bind_Ok. intros H.
    assert (value' = value) as ->.
    { destruct (truthy value && negb (number_negative instance));
        [| by injection H].
      destruct (lt_zero value) as [[] | e]; try discriminate. by injection H. }
    by rewrite Hc, bind_Ok.
Qed.

Lemma prepare_value_for_db_idempotent_witness :
  prepare_value_for_db (λ _, None) TestRowsHandler.price_field
    (PyDecimal (DFinite 599999899999999979627318680286407470703125 (-37)))
  = Ok (PyDecimal (DFinite 599999899999999979627318680286407470703125 (-37))).
Proof.
  apply (prepare_value_for_db_idempotent (λ _, None)
           TestRowsHandler.price_field
           (PyFloat TestRowsHandler.float_59999_99)).
  reflexivity.
Defined.

(** X20: a field that allows no negatives never lets one through:
    whatever [prepare_value_for_db] returns for it is not below zero. *)
Theorem prepare_value_for_db_never_negative (parse : string → option Decimal)
    (instance : NumberField) (value value' : pyval) :
  number_negative instance = false →
  prepare_value_for_db parse instance value = Ok value' →
  ¬ is_negative value'.
Proof.
  intros Hn. unfold prepare_value_for_db, is_negative. rewrite Hn.
  cbn [negb]. 
  destruct (if truthy value
               && String.eqb (number_type instance) NUMBER_TYPE_DECIMAL
            then to_Decimal parse value ≫= λ d, Ok (PyDecimal d)
            else Ok value) as [v | e]; [| discriminate].
  rewrite bind_Ok, andb_true_r.
  destruct (truthy v) eqn:Hv.
  - destruct (lt_zero v) as [[] | e] eqn:Hlt; try discriminate.
    intros [= <-]. by rewrite Hlt.
  - intros [= <-]. by apply falsy_not_negative.
Qed.

Lemma prepare_value_for_db_never_negative_witness :
  ¬ is_negative (PyInt 240).
Proof.
  apply (prepare_value_for_db_never_negative (λ _, None)
           (mkNumberField (mkField 2 1 0 "Max speed" false) "INTEGER" 1 false)
           (PyInt 240)); reflexivity.
Defined.

(** X21: what the validation of a number field does with values that are
    no numbers.  On a field that is not DECIMAL and allows negatives
    nothing is checked: every value, a string too, is handed back.  On a
    field that is not DECIMAL and allows no negatives a non-empty string
    ends in a [TypeError], not a [ValidationError].  On a DECIMAL field a
    non-empty string that is no decimal ends in [InvalidOperation], and so
    does a float NaN when negatives are not allowed. *)
Theorem prepare_value_for_db_non_numbers (parse : string → option Decimal)
    (instance : NumberField) (value : pyval) (s : string) :
  (number_type instance ≠ NUMBER_TYPE_DECIMAL →
   number_negative instance = true →
   prepare_value_for_db parse instance value = Ok value)
  ∧ (number_type instance ≠ NUMBER_TYPE_DECIMAL →
     number_negative instance = false → s ≠ "" →
     prepare_value_for_db parse instance (PyStr s) = Raise TypeError)
  ∧ (number_type instance = NUMBER_TYPE_DECIMAL →
     s ≠ "" → parse s = None →
     prepare_value_for_db parse instance (PyStr s) = Raise InvalidOperation)
  ∧ (number_type instance = NUMBER_TYPE_DECIMAL →
     number_negative instance = false →
     prepare_value_for_db parse instance (PyFloat FNaN)
     = Raise InvalidOperation).
Proof.
  unfold prepare_value_for_db. split_and!.
  - intros Ht ->.
    destruct (String.eqb_spec (number_type instance) NUMBER_TYPE_DECIMAL);
      [done |].
    rewrite andb_false_r, bind_Ok. cbn [negb]. by rewrite andb_false_r.
  - intros Ht -> Hs.
    destruct (String.eqb_spec (number_type instance) NUMBER_TYPE_DECIMAL);
      [done |].
    rewrite andb_false_r, bind_Ok. cbn [truthy negb].
    by destruct (String.eqb_spec s "").
  - intros -> Hs Hp. cbn [truthy to_Decimal]. rewrite Hp.
    by destruct (String.eqb_spec s "").
  - by intros -> ->.
Qed.

(** X22: once [after_update] has set the negatives to 0, no row holds a
    value below zero in the field's column; in every case the other
    columns of every row are as before, and a second run changes
    nothing more. *)
Theorem after_update_leaves_no_negative (field old_field : NumberField)
    (model : list row) (altered_column : bool) :
  let column := db_column (number_base field) in
  let model' := after_update field old_field model altered_column in
  (altered_column = false ∧ number_negative old_field = true
   ∧ number_negative field = false →
   ∀ r' : row, r' ∈ model' → sql_lt_zero (r' !! column) = false)
  ∧ (∀ (i : nat) (r r' : row) (c : string),
       model !! i = Some r → model' !! i = Some r' → c ≠ column →
       r' !! c = r !! c)
  ∧ after_update field old_field model' altered_column = model'.
Proof.
  intros column model'. subst model'. unfold after_update.
  destruct (negb altered_column && negb (number_negative field)
            && number_negative old_field) eqn:Hc; fold column.
  - split_and!.
    + intros _ r' Hin. unfold filter_lt_zero_update_zero in Hin.
      apply list_elem_of_fmap in Hin as (r & -> & _).
      destruct (sql_lt_zero (r !! column)) eqn:Hr; [| done].
      by rewrite lookup_insert_eq.
    + intros i r r' c Hr Hr' Hne.
      rewrite filter_lt_zero_update_zero_lookup, Hr in Hr'.
      injection Hr' as <-.
      destruct (sql_lt_zero (r !! column)); [| done].
      by rewrite lookup_insert_ne.
    + unfold filter_lt_zero_update_zero. rewrite <- list_fmap_compose.
      apply list_fmap_ext. intros i r _. simpl.
      destruct (sql_lt_zero (r !! column)) eqn:Hr; [| by rewrite Hr].
      by rewrite lookup_insert_eq.
  - split_and!; [| by intros i r r' c -> [= ->] | done].
    intros (Ha & Ho & Hf). rewrite Ha, Ho, Hf in Hc. discriminate.
Qed.

(** X23: [save] keeps a store of valid number fields valid: when every
    stored field has 1 to 5 decimal places, every stored field has them
    after [save], whether it accepted the field or raised; fields under
    another primary key are never touched. *)
Theorem save_keeps_decimal_places (self : NumberField) (db : number_fields) :
  (∀ k f, db !! k = Some f → 1 ≤ number_decimal_places f ≤ 5) →
  (∀ k f, (save self db).2 !! k = Some f → 1 ≤ number_decimal_places f ≤ 5)
  ∧ (∀ k, k ≠ field_id (number_base self) →
          (save self db).2 !! k = db !! k).
Proof.
  intros Hdb. destruct (save_checks self db) as (Hok & Hstored & Hraise).
  assert ((save self db).1 = Ok () ∨ (save self db).1 ≠ Ok ())
    as [Hsave | Hsave]
    by (destruct (save self db).1 as [[] | e]; [by left | by right]).
  - rewrite (Hstored Hsave). apply Hok in Hsave as [_ Hplaces]. split.
    + intros k f. destruct (decide (k = field_id (number_base self))) as [-> | ?].
      * rewrite lookup_insert_eq. by intros [= <-].
      * rewrite lookup_insert_ne by done. apply Hdb.
    + intros k Hne. by rewrite lookup_insert_ne.
  - destruct (Hraise Hsave) as [_ ->]. split; [exact Hdb | done].
Qed.

Lemma save_keeps_decimal_places_witness :
  (save (mkNumberField (mkField 1 1 0 "Speed" false) "INTEGER" 9 false)
     {[ 3 := TestRowsHandler.price_field ]}).2 !! 3
  = Some TestRowsHandler.price_field.
Proof.
  destruct (save_keeps_decimal_places
              (mkNumberField (mkField 1 1 0 "Speed" false) "INTEGER" 9 false)
              {[ 3 := TestRowsHandler.price_field ]}) as [_ H].
  - intros k f Hk. apply lookup_singleton_Some in Hk as [_ <-]. done.
  - rewrite H; [reflexivity | done].
Defined.
